(** * Karaf feature and repository modules: a shallow embedding

    The two Ansible modules [karaf_feature.py] and [karaf_repo.py] drive the
    Karaf console through its command line client.  They are embedded here
    as functions in a small monad that threads the managed host (the
    answers of [module.run_command]) and records every external action in
    a trace; [module.fail_json], [module.exit_json] and Python exceptions
    are the terminal outcomes of that monad. *)

From Stdlib Require Import ZArith Ascii String.
From stdpp Require Import gmap strings list fin_maps.

Local Open Scope string_scope.

(** ** Python string primitives *)

Module Py.

(** The characters [str.split()] and [str.strip()] treat as whitespace
    on byte strings: space, tab, newline, vertical tab, form feed and
    carriage return. *)
Definition is_space (c : ascii) : bool :=
  let n := nat_of_ascii c in
  Nat.eqb n 32 || (Nat.leb 9 n && Nat.leb n 13).

Definition newline : ascii := ascii_of_nat 10.
Definition dquote : string := String (ascii_of_nat 34) "".

(** Truthiness of a string: [if s:] holds for a non-empty string. *)
Definition truthy (s : string) : bool :=
  match s with "" => false | String _ _ => true end.

(** [s.split(sep)] for a single character separator: every occurrence
    of [sep] ends a field, so the result is never empty. *)
Fixpoint split_on (sep : ascii) (s : string) : list string :=
  match s with
  | "" => [""]
  | String c s' =>
      if Ascii.eqb c sep then "" :: split_on sep s'
      else match split_on sep s' with
           | [] => [String c ""]
           | f :: fs => String c f :: fs
           end
  end.

(** [s.split()]: scan the string, collect the characters of the current
    token in [cur], emit the token at each whitespace character; runs of
    whitespace produce no empty token. *)
Fixpoint split_go (cur : string) (s : string) : list string :=
  match s with
  | "" => if truthy cur then [cur] else []
  | String c s' =>
      if is_space c
      then (if truthy cur then cur :: split_go "" s' else split_go "" s')
      else split_go (cur +:+ String c "") s'
  end.

Definition split (s : string) : list string := split_go "" s.

Fixpoint lstrip (s : string) : string :=
  match s with
  | "" => ""
  | String c s' => if is_space c then lstrip s' else s
  end.

Fixpoint rstrip (s : string) : string :=
  match s with
  | "" => ""
  | String c s' =>
      match rstrip s' with
      | "" => if is_space c then "" else String c ""
      | r => String c r
      end
  end.

(** [s.strip()] *)
Definition strip (s : string) : string := rstrip (lstrip s).

(** [s.replace(a, b)] for single characters [a] and [b]. *)
Fixpoint replace (a b : ascii) (s : string) : string :=
  match s with
  | "" => ""
  | String c s' => String (if Ascii.eqb c a then b else c) (replace a b s')
  end.

(** [s.index(sub)]: the first position at which [sub] occurs, [None]
    where Python raises [ValueError]. *)
Fixpoint index (sub s : string) : option nat :=
  if String.prefix sub s then Some 0
  else match s with
       | "" => None
       | String _ s' => option_map S (index sub s')
       end.

(** [sub in s] *)
Definition contains (sub s : string) : bool :=
  match index sub s with Some _ => true | None => false end.

(** [s[n:]] *)
Fixpoint slice_from (n : nat) (s : string) : string :=
  match n, s with
  | O, _ => s
  | S n', String _ s' => slice_from n' s'
  | S _, "" => ""
  end.

(** [l[i]] where the caller has checked the length. *)
Definition item (l : list string) (i : nat) : string := nth i l "".

(** Values that may be [None]: parameters with [default=None], and the
    value [check_client_bin_path] hands back. *)
Definition str_of (o : option string) : string :=
  match o with Some s => s | None => "None" end.

(** Values stored in the dictionaries given to [exit_json]. *)
Inductive pyval :=
| PBool (b : bool)
| PStr (s : string)
| PEmptyDict.

Definition kwargs := list (string * pyval).

(** [d[k]] on a constant table of strings, read at keys it holds. *)
Definition getitem (d : list (string * string)) (k : string) : string :=
  match List.find (fun kv => String.eqb (fst kv) k) d with
  | Some kv => snd kv
  | None => ""
  end.

End Py.

(** ** The managed host and the module runtime *)

(** What the modules observe of the machine they run on: the process
    primitive behind [module.run_command] (exit code, stdout, stderr, in a
    world that a command may change) and the two file system tests of
    [os.path]. *)
Class Host := {
  World : Type;
  run_command : string -> World -> (Z * string * string) * World;
  isfile : string -> bool;
  isdir : string -> bool
}.

(** External actions, recorded in the order they happen. *)
Inductive event :=
| Run (cmd : string)
| Sleep (seconds : nat).

(** How a call ends: it returns, or the module stops the whole run with
    [fail_json] or [exit_json] (both leave the process in Ansible, so
    nothing after them runs), or an exception escapes. *)
Inductive outcome (A : Type) :=
| Ret (a : A)
| FailJson (msg : string)
| ExitJson (result : Py.kwargs)
| Raise (exn : string).

Arguments Ret {A} a.
Arguments FailJson {A} msg.
Arguments ExitJson {A} result.
Arguments Raise {A} exn.

Module Rt.
Section Runtime.
Context `{Host}.

Record st := St { world : World; trace : list event }.

Definition M (A : Type) : Type := st -> outcome A * st.

Definition ret {A} (a : A) : M A := fun s => (Ret a, s).

Definition bind {A B} (m : M A) (k : A -> M B) : M B :=
  fun s =>
    match m s with
    | (Ret a, s') => k a s'
    | (FailJson msg, s') => (FailJson msg, s')
    | (ExitJson r, s') => (ExitJson r, s')
    | (Raise e, s') => (Raise e, s')
    end.

Definition fail_json {A} (msg : string) : M A := fun s => (FailJson msg, s).
Definition exit_json {A} (result : Py.kwargs) : M A :=
  fun s => (ExitJson result, s).
Definition raise {A} (exn : string) : M A := fun s => (Raise exn, s).

(** [module.run_command(cmd)] *)
Definition run (cmd : string) : M (Z * string * string) :=
  fun s =>
    let '(r, w) := run_command cmd (world s) in
    (Ret r, St w (trace s ++ [Run cmd])).

(** [time.sleep(n)]; the name [time] reaches the module through the star
    import of [ansible.module_utils.basic]. *)
Definition sleep (n : nat) : M unit :=
  fun s => (Ret tt, St (world s) (trace s ++ [Sleep n])).

(** A run of a module starts with an empty trace. *)
Definition exec {A} (m : M A) (w : World) : outcome A * list event :=
  let '(o, s) := m (St w []) in (o, trace s).

(** [os.path.join(a, b)] for a relative [b]. *)
Definition ends_with_slash (a : string) : bool :=
  match Py.slice_from (String.length a - 1) a with
  | "/" => true
  | _ => false
  end.

Definition path_join (a b : string) : string :=
  if negb (Py.truthy a) then b
  else if ends_with_slash a then a +:+ b
  else a +:+ "/" +:+ b.

(** [acc = acc + flag + value], guarded by [value is not None]; adding a
    string to [None] raises [TypeError]. *)
Definition add_option (acc : option string) (flag : string)
    (value : option string) : M (option string) :=
  match value with
  | None => ret acc
  | Some v =>
      match acc with
      | Some a => ret (Some (a +:+ flag +:+ v))
      | None => raise "TypeError"
      end
  end.

End Runtime.
End Rt.

Notation "'let*' x ':=' m 'in' k" := (Rt.bind m (fun x => k))
  (at level 10, x pattern, m at level 100, k at level 200, only parsing).

(** ** karaf_feature.py *)

Module karaf_feature.
Section Feature.
Context `{Host}.

Definition PACKAGE_STATE_MAP : list (string * string) :=
  [("present", "install"); ("absent", "uninstall")].

Definition FEATURE_STATE_UNINSTALLED : string := "Uninstalled".

Definition CLIENT_KARAF_COMMAND (a : option string) (b : string) : string :=
  Py.str_of a +:+ " 'feature:" +:+ b +:+ "'".

Definition CLIENT_KARAF_COMMAND_WITH_ARGS (a : option string) (b c : string)
    : string :=
  Py.str_of a +:+ " 'feature:" +:+ b +:+ " " +:+ c +:+ "'".

Definition parse_error (string : String.string) : String.string :=
  let reason := "reason: " in
  match Py.index reason string with
  | Some i => Py.strip (Py.slice_from (i + String.length reason) string)
  | None => string
  end.

(** One iteration's view of a listing line: [None] where the loop
    continues with the next line because the line has fewer than four
    fields, the three fields it reads otherwise. *)
Definition feature_data (line : string) : option (string * string * string) :=
  let feature_data := Py.split line in
  if Nat.ltb (length feature_data) 4 then None
  else
    let name := Py.strip (Py.item feature_data 0) in
    let version := Py.strip (Py.item feature_data 1) in
    let state := Py.strip (Py.item feature_data 3) in
    Some (name, version, state).

(** The loop of [is_feature_installed] over the lines of the listing;
    [feature_version] is already normalised. *)
Fixpoint scan_lines (feature_name feature_version : string)
    (lines : list string) : bool :=
  match lines with
  | [] => false
  | line :: lines' =>
      match feature_data line with
      | None => scan_lines feature_name feature_version lines'
      | Some (name, version, state) =>
          if negb (String.eqb name feature_name)
          then scan_lines feature_name feature_version lines'
          else if negb (String.eqb state FEATURE_STATE_UNINSTALLED) then
            let version := Py.replace "_" "." version in
            if Py.truthy feature_version then
              if String.eqb version feature_version then true
              else scan_lines feature_name feature_version lines'
            else true
          else scan_lines feature_name feature_version lines'
      end
  end.

(** What [is_feature_installed] computes from the captured output. *)
Definition installed_in (out : string) (feature_name : string)
    (feature_version : option string) : bool :=
  let lines := Py.split_on Py.newline out in
  let feature_version :=
    match feature_version with
    | Some v => if Py.truthy v then v else ""
    | None => ""
    end in
  let feature_version := Py.replace "-" "." feature_version in
  scan_lines feature_name feature_version lines.

Definition is_feature_installed (client_bin_with_args : option string)
    (feature_name : string) (feature_version : option string) : Rt.M bool :=
  let cmd := CLIENT_KARAF_COMMAND client_bin_with_args "list -i --no-format" in
  let* (rc, out, err) := Rt.run cmd in
  Rt.ret (installed_in out feature_name feature_version).

Definition full_qualified_name (feature_name : string)
    (feature_version : option string) : string :=
  match feature_version with
  | Some v => if Py.truthy v then feature_name +:+ "/" +:+ v else feature_name
  | None => feature_name
  end.

Definition install_feature (client_bin_with_args : option string)
    (feature_name : string) (feature_version : option string)
    : Rt.M (bool * string * string * string) :=
  let cmd := CLIENT_KARAF_COMMAND_WITH_ARGS client_bin_with_args
               (Py.getitem PACKAGE_STATE_MAP "present")
               (full_qualified_name feature_name feature_version) in
  let* (rc, out, err) := Rt.run cmd in
  let* _ := (if negb (Z.eqb rc 0) then Rt.fail_json (parse_error out)
        else Rt.ret tt) in
  let* is_installed := is_feature_installed client_bin_with_args
                    feature_name feature_version in
  let* _ := (if negb is_installed then Rt.fail_json "Feature fails to install"
        else Rt.ret tt) in
  Rt.ret (true, cmd, out, err).

Definition uninstall_feature (client_bin_with_args : option string)
    (feature_name : string) (feature_version : option string)
    : Rt.M (bool * string * string * string) :=
  let cmd := CLIENT_KARAF_COMMAND_WITH_ARGS client_bin_with_args
               (Py.getitem PACKAGE_STATE_MAP "absent")
               (full_qualified_name feature_name feature_version) in
  let* (rc, out, err) := Rt.run cmd in
  let* _ := (if negb (Z.eqb rc 0) then Rt.fail_json (parse_error out)
        else Rt.ret tt) in
  let* is_installed := is_feature_installed client_bin_with_args
                    feature_name feature_version in
  let* _ := (if is_installed then Rt.fail_json "Feature fails to uninstall"
        else Rt.ret tt) in
  Rt.ret (true, cmd, out, err).

(** The function ends without a [return] when the directory has no
    [bin/client]: Python then hands back [None]. *)
Definition check_client_bin_path (client_bin : string) : Rt.M (option string) :=
  if isfile client_bin then Rt.ret (Some client_bin)
  else if isdir client_bin then
    let test := Rt.path_join client_bin "bin/client" in
    if isfile test then Rt.ret (Some test)
    else Rt.ret None
  else Rt.raise ("client_bin parameter not supported: " +:+ client_bin).

Record params := Params {
  p_name : string;
  p_version : option string;
  p_state : string;
  p_client_bin : string;
  p_host : option string;
  p_port : option string;
  p_user : option string;
  p_password : option string;
  p_delay : option string;
  p_retry : option string
}.

(** The connection-qualified client command of [main]. *)
Definition client_command (p : params) : Rt.M (option string) :=
  let* client_bin := check_client_bin_path (p_client_bin p) in
  let client_bin_with_args := client_bin in
  let* client_bin_with_args := Rt.add_option client_bin_with_args " -h " (p_host p) in
  let* client_bin_with_args := Rt.add_option client_bin_with_args " -a " (p_port p) in
  let* client_bin_with_args := Rt.add_option client_bin_with_args " -u " (p_user p) in
  let* client_bin_with_args := Rt.add_option client_bin_with_args " -p " (p_password p) in
  let* client_bin_with_args := Rt.add_option client_bin_with_args " -d " (p_delay p) in
  Rt.add_option client_bin_with_args " -r " (p_retry p).

Definition main (p : params) : Rt.M unit :=
  let name := p_name p in
  let version := p_version p in
  let state := p_state p in
  let* client_bin_with_args := client_command p in
  let* is_installed := is_feature_installed client_bin_with_args name version in
  let* (changed, cmd, out, err) :=
    (if String.eqb state "present" && negb is_installed
     then install_feature client_bin_with_args name version
     else if String.eqb state "absent" && is_installed
     then uninstall_feature client_bin_with_args name version
     else Rt.ret (false, "", "", "")) in
  Rt.exit_json [("changed", Py.PBool changed); ("cmd", Py.PStr cmd);
                ("name", Py.PStr name); ("state", Py.PStr state);
                ("stdout", Py.PStr out); ("stderr", Py.PStr err)].

End Feature.
End karaf_feature.

(** ** karaf_repo.py *)

Module karaf_repo.
Section Repo.
Context `{Host}.

Definition STATE_PRESENT : string := "present".
Definition STATE_ABSENT : string := "absent".
Definition STATE_REFRESH : string := "refresh".

Definition PACKAGE_STATE_MAP : list (string * string) :=
  [("present", "repo-add"); ("absent", "repo-remove");
   ("refresh", "repo-refresh")].

Definition CLIENT_KARAF_COMMAND_WITH_ARGS (a : option string) (b c : string)
    : string :=
  Py.str_of a +:+ " 'feature:" +:+ b +:+ " " +:+ c +:+ "'".

(** The statement after [fail_json] is not reached: [fail_json] ends
    the run. *)
Definition run_with_check (cmd : string) : Rt.M string :=
  let* (rc, out, err) := Rt.run cmd in
  if negb (Z.eqb rc 0)
     || Py.contains "Error executing command" out
     || Py.contains "Command not found" out
  then let reason := out in Rt.fail_json reason
  else Rt.ret out.

Record repo := Repo { name : string; url : string }.

(** One iteration of the loop of [get_existing_repos]. *)
Definition add_line (existing_repos : gmap string repo) (line : string)
    : gmap string repo :=
  let split := Py.split line in
  if negb (Nat.eqb (length split) 2) then existing_repos
  else
    let repo_name := Py.strip (Py.item split 0) in
    let repo_url := Py.strip (Py.item split 1) in
    <[repo_url := Repo repo_name repo_url]> existing_repos.

(** What [get_existing_repos] builds from the captured output. *)
Definition repos_in (out : string) : gmap string repo :=
  fold_left add_line (Py.split_on Py.newline out) ∅.

Definition repo_list_command (client_bin_with_args : option string) : string :=
  Py.str_of client_bin_with_args +:+ " " +:+ Py.dquote
    +:+ "feature:repo-list --no-format" +:+ Py.dquote.

Definition get_existing_repos (client_bin_with_args : option string)
    : Rt.M (gmap string repo) :=
  let* out := run_with_check (repo_list_command client_bin_with_args) in
  Rt.ret (repos_in out).

(** [url in repos] *)
Definition member (repo_url : string) (repos : gmap string repo) : bool :=
  match repos !! repo_url with Some _ => true | None => false end.

Definition changed_result (out cmd : string) : Py.kwargs :=
  [("changed", Py.PBool true); ("original_message", Py.PStr "");
   ("message", Py.PStr ""); ("meta", Py.PEmptyDict);
   ("out", Py.PStr out); ("cmd", Py.PStr cmd)].

Definition add_repo (client_bin_with_args : option string) (repo_url : string)
    : Rt.M Py.kwargs :=
  let cmd := CLIENT_KARAF_COMMAND_WITH_ARGS client_bin_with_args
               (Py.getitem PACKAGE_STATE_MAP STATE_PRESENT) repo_url in
  let* out := run_with_check cmd in
  let result := changed_result out cmd in
  let* repos := get_existing_repos client_bin_with_args in
  let* _ := (if negb (member repo_url repos)
             then Rt.fail_json ("Repo (" +:+ Py.dquote +:+ repo_url
                                 +:+ Py.dquote +:+ ") did not install")
             else Rt.ret tt) in
  Rt.ret result.

Definition remove_repo (client_bin_with_args : option string)
    (repo_url : string) : Rt.M Py.kwargs :=
  let cmd := CLIENT_KARAF_COMMAND_WITH_ARGS client_bin_with_args
               (Py.getitem PACKAGE_STATE_MAP STATE_ABSENT) repo_url in
  let* out := run_with_check cmd in
  let result := changed_result out cmd in
  let* _ := Rt.sleep 20 in
  let* repos := get_existing_repos client_bin_with_args in
  let* _ := (if member repo_url repos
             then Rt.fail_json ("Repo (" +:+ Py.dquote +:+ repo_url
                                 +:+ Py.dquote +:+ ") is still installed")
             else Rt.ret tt) in
  Rt.ret result.

Definition refresh_repo (client_bin_with_args : option string)
    (repo_url : string) : Rt.M Py.kwargs :=
  let cmd := CLIENT_KARAF_COMMAND_WITH_ARGS client_bin_with_args
               (Py.getitem PACKAGE_STATE_MAP STATE_REFRESH) repo_url in
  let* out := run_with_check cmd in
  let result := changed_result out cmd in
  Rt.ret result.

Definition parse_error (string : String.string) : String.string :=
  let reason := "reason: " in
  match Py.index reason string with
  | Some i => Py.strip (Py.slice_from (i + String.length reason) string)
  | None => string
  end.

Definition check_client_bin_path (client_bin : string) : Rt.M (option string) :=
  if isfile client_bin then Rt.ret (Some client_bin)
  else if isdir client_bin then
    let test := Rt.path_join client_bin "bin/client" in
    if isfile test then Rt.ret (Some test)
    else Rt.ret None
  else Rt.raise ("client_bin parameter not supported: " +:+ client_bin).

Record params := Params {
  p_url : string;
  p_state : string;
  p_client_bin : string;
  p_host : option string;
  p_port : option string;
  p_user : option string;
  p_password : option string;
  p_delay : option string;
  p_retry : option string
}.

Definition client_command (p : params) : Rt.M (option string) :=
  let* client_bin := check_client_bin_path (p_client_bin p) in
  let client_bin_with_args := client_bin in
  let* client_bin_with_args := Rt.add_option client_bin_with_args " -h " (p_host p) in
  let* client_bin_with_args := Rt.add_option client_bin_with_args " -a " (p_port p) in
  let* client_bin_with_args := Rt.add_option client_bin_with_args " -u " (p_user p) in
  let* client_bin_with_args := Rt.add_option client_bin_with_args " -p " (p_password p) in
  let* client_bin_with_args := Rt.add_option client_bin_with_args " -d " (p_delay p) in
  Rt.add_option client_bin_with_args " -r " (p_retry p).

Definition not_available (url : string) : string :=
  "The given repository (" +:+ Py.dquote +:+ url +:+ Py.dquote
    +:+ ") is not available and can therefore not be refreshed".

Definition main (p : params) : Rt.M unit :=
  let url := p_url p in
  let state := p_state p in
  let* client_bin_with_args := client_command p in
  let* existing_repos := get_existing_repos client_bin_with_args in
  let result := [("changed", Py.PBool false);
                 ("original_message", Py.PStr ""); ("message", Py.PStr "")] in
  let* result :=
    (if String.eqb state STATE_PRESENT && negb (member url existing_repos)
     then add_repo client_bin_with_args url
     else if String.eqb state STATE_ABSENT && member url existing_repos
     then remove_repo client_bin_with_args url
     else if String.eqb state STATE_REFRESH then
       if negb (member url existing_repos)
       then Rt.fail_json (not_available url)
       else refresh_repo client_bin_with_args url
     else Rt.ret result) in
  Rt.exit_json result.

End Repo.
End karaf_repo.

(** ** A scripted host

    The commands are answered from a queue of prepared results, whatever
    the command line; an exhausted queue answers with exit code 1 and no
    output. *)

Module Script.

Definition answer : Type := Z * string * string.

Definition host (files dirs : list string) : Host := {|
  World := list answer;
  run_command := fun _ w =>
    match w with
    | r :: w' => (r, w')
    | [] => ((1%Z, "", ""), [])
    end;
  isfile := fun p => existsb (String.eqb p) files;
  isdir := fun p => existsb (String.eqb p) dirs
|}.

Definition nl : string := String Py.newline "".

End Script.

(** ** Sample hosts and parameters *)

Module Demo.

(** A Karaf installation under /opt/karaf with its client. *)
Definition installed : Host :=
  Script.host ["/opt/karaf/bin/client"] ["/opt/karaf"; "/opt/karaf/bin"].

(** A directory /opt/karaf that holds no bin/client. *)
Definition no_client : Host := Script.host [] ["/opt/karaf"].

Definition client : option string := Some "/opt/karaf/bin/client".

Definition feature (version : option string) (state : string)
    : karaf_feature.params :=
  karaf_feature.Params "camel-jms" version state "/opt/karaf"
    None None None None None None.

Definition repository (state : string) : karaf_repo.params :=
  karaf_repo.Params "mvn:x/1.0/xml/features" state "/opt/karaf"
    None None None None None None.

Definition feature_list : string :=
  "/opt/karaf/bin/client 'feature:list -i --no-format'".

Definition repo_list : string :=
  "/opt/karaf/bin/client " +:+ Py.dquote +:+ "feature:repo-list --no-format"
    +:+ Py.dquote.

Definition ok (out : string) : Script.answer := (0%Z, out, "").

End Demo.

(** ** Vocabulary of the statements *)

(** A string without whitespace characters. *)
Fixpoint clean (s : string) : bool :=
  match s with
  | "" => true
  | String c s' => negb (Py.is_space c) && clean s'
  end.

(** The lines of a captured output. *)
Definition lines_of (out : string) : list string := Py.split_on Py.newline out.

(** The feature records of a listing: what the iterations of the loop
    of [is_feature_installed] read, line after line. *)
Fixpoint records_of_lines (lines : list string)
    : list (string * string * string) :=
  match lines with
  | [] => []
  | line :: lines' =>
      match karaf_feature.feature_data line with
      | None => records_of_lines lines'
      | Some r => r :: records_of_lines lines'
      end
  end.

Definition feature_records (out : string) : list (string * string * string) :=
  records_of_lines (lines_of out).

(** A command answered without failure: exit code zero and none of the
    error markers of the console in its output. *)
Definition healthy (r : Z * string * string) : bool :=
  let '(rc, out, _) := r in
  Z.eqb rc 0
  && negb (Py.contains "Error executing command" out)
  && negb (Py.contains "Command not found" out).

Arguments healthy : simpl never.

(** A record of the wanted feature that is not uninstalled. *)
Definition present_record (feature_name : string)
    (r : string * string * string) : bool :=
  let '(name, _, state) := r in
  String.eqb name feature_name && negb (String.eqb state "Uninstalled").

Definition record_version (r : string * string * string) : string :=
  let '(_, version, _) := r in version.

(** A computation that leaves the world and the trace alone. *)
Definition silent `{Host} {A} (m : Rt.M A) : Prop := forall s, snd (m s) = s.

(** The text a connection option adds to the client command. *)
Definition option_text (flag : string) (value : option string) : string :=
  match value with
  | Some v => flag +:+ v
  | None => ""
  end.

(** The connection options of the two modules, in the order [main] reads
    them. *)
Definition feature_options (p : karaf_feature.params) : list (option string) :=
  [karaf_feature.p_host p; karaf_feature.p_port p; karaf_feature.p_user p;
   karaf_feature.p_password p; karaf_feature.p_delay p;
   karaf_feature.p_retry p].

Definition repo_options (p : karaf_repo.params) : list (option string) :=
  [karaf_repo.p_host p; karaf_repo.p_port p; karaf_repo.p_user p;
   karaf_repo.p_password p; karaf_repo.p_delay p; karaf_repo.p_retry p].

Definition options_text (options : list (option string)) : string :=
  match options with
  | [host; port; user; password; delay; retry] =>
      option_text " -h " host +:+ option_text " -a " port
        +:+ option_text " -u " user +:+ option_text " -p " password
        +:+ option_text " -d " delay +:+ option_text " -r " retry
  | _ => ""
  end.

Definition is_given (value : option string) : bool :=
  match value with Some _ => true | None => false end.

(** The character [c] occurs in [s]. *)
Fixpoint occurs (c : ascii) (s : string) : bool :=
  match s with
  | "" => false
  | String d s' => Ascii.eqb d c || occurs c s'
  end.

(** ** Whitespace splitting and stripping *)

Lemma clean_app (a b : string) : clean (a +:+ b) = clean a && clean b.
Proof.
  induction a as [|c a IH]; simpl; [reflexivity|].
  rewrite IH. apply andb_assoc.
Qed.

Lemma truthy_snoc (cur : string) (c : ascii) :
  Py.truthy (cur +:+ String c "") = true.
Proof. destruct cur; reflexivity. Qed.

Lemma split_go_tokens (s : string) :
  forall cur, clean cur = true ->
    Forall (fun t => clean t = true /\ Py.truthy t = true) (Py.split_go cur s).
Proof.
  induction s as [|c s IH]; intros cur Hcur; simpl.
  - destruct (Py.truthy cur) eqn:Ht; constructor; auto.
  - destruct (Py.is_space c) eqn:Hc.
    + destruct (Py.truthy cur) eqn:Ht.
      * constructor; [auto|]. apply IH. reflexivity.
      * apply IH. reflexivity.
    + apply IH. rewrite clean_app, Hcur. simpl. rewrite Hc. reflexivity.
Qed.

Lemma split_tokens (s : string) :
  Forall (fun t => clean t = true /\ Py.truthy t = true) (Py.split s).
Proof. apply split_go_tokens. reflexivity. Qed.

Lemma lstrip_clean (s : string) : clean s = true -> Py.lstrip s = s.
Proof.
  destruct s as [|c s]; simpl; [reflexivity|].
  intros Hc. apply andb_prop in Hc as [Hc _].
  apply negb_true_iff in Hc. rewrite Hc. reflexivity.
Qed.

Lemma rstrip_clean (s : string) : clean s = true -> Py.rstrip s = s.
Proof.
  induction s as [|c s IH]; simpl; [reflexivity|].
  intros Hc. apply andb_prop in Hc as [Hc Hs].
  apply negb_true_iff in Hc. rewrite (IH Hs), Hc.
  destruct s; reflexivity.
Qed.

Lemma strip_clean (s : string) : clean s = true -> Py.strip s = s.
Proof.
  intros Hc. unfold Py.strip. rewrite (lstrip_clean _ Hc).
  apply rstrip_clean, Hc.
Qed.

(** Stripping a token of [split] changes nothing. *)
Lemma strip_item (line : string) (i : nat) :
  i < length (Py.split line) ->
  Py.strip (Py.item (Py.split line) i) = Py.item (Py.split line) i.
Proof.
  intros Hi. apply strip_clean.
  pose proof (split_tokens line) as Hall.
  rewrite (Forall_nth _ "") in Hall. apply (Hall i Hi).
Qed.

Lemma strip_token (line : string) (t : string) :
  In t (Py.split line) -> Py.strip t = t.
Proof.
  intros Hin. apply strip_clean.
  pose proof (split_tokens line) as Hall.
  rewrite List.Forall_forall in Hall. apply (Hall t Hin).
Qed.

(** The fields one iteration reads are the tokens 0, 1 and 3 of the
    line, unchanged. *)
Lemma feature_data_fields (line : string) :
  karaf_feature.feature_data line =
    let t := Py.split line in
    if Nat.ltb (length t) 4 then None
    else Some (Py.item t 0, Py.item t 1, Py.item t 3).
Proof.
  unfold karaf_feature.feature_data. cbv zeta.
  destruct (Nat.ltb_spec (length (Py.split line)) 4) as [Hlt|Hge];
    [reflexivity|].
  rewrite !strip_item by lia. reflexivity.
Qed.

(** ** The feature listing *)

(** The loop answers from the records alone: it stops at the first
    record of the feature that is not uninstalled and, when a version is
    asked for, carries that version. *)
Lemma scan_lines_records (n v : string) (lines : list string) :
  karaf_feature.scan_lines n v lines =
    existsb (fun r => present_record n r
                      && (if Py.truthy v
                          then String.eqb (Py.replace "_" "." (record_version r)) v
                          else true))
            (records_of_lines lines).
Proof.
  induction lines as [|line lines IH]; simpl; [reflexivity|].
  destruct (karaf_feature.feature_data line) as [[[name version] state]|];
    simpl; [|exact IH].
  unfold karaf_feature.FEATURE_STATE_UNINSTALLED.
  destruct (String.eqb name n); simpl; [|exact IH].
  destruct (String.eqb state "Uninstalled"); simpl; [exact IH|].
  destruct (Py.truthy v); [|reflexivity].
  destruct (String.eqb (Py.replace "_" "." version) v); simpl;
    [reflexivity|exact IH].
Qed.

Lemma existsb_pointwise {A} (f g : A -> bool) (l : list A) :
  (forall a, f a = g a) -> existsb f l = existsb g l.
Proof.
  intros Hfg. induction l as [|a l IH]; simpl; [reflexivity|].
  rewrite Hfg, IH. reflexivity.
Qed.

Lemma truthy_replace (a b : ascii) (s : string) :
  Py.truthy (Py.replace a b s) = Py.truthy s.
Proof. destruct s; reflexivity. Qed.

Lemma truthy_true (s : string) : s <> "" -> Py.truthy s = true.
Proof. destruct s; [congruence|reflexivity]. Qed.

(** C8: the listing is cut into lines and each line into whitespace
    separated tokens; a line of fewer than 4 tokens gives no record, a line
    of 4 or more gives exactly one, made of its tokens 0, 1 and 3, and the
    installed-check depends on the listing through these records only.  A
    2-token header followed by a 5-token data line gives the one record of
    the data line. *)
Theorem C8_feature_listing_records (out : string) :
  feature_records out =
    flat_map (fun line =>
                let t := Py.split line in
                if Nat.ltb (length t) 4 then []
                else [(Py.item t 0, Py.item t 1, Py.item t 3)])
             (Py.split_on Py.newline out)
  /\ (forall n v,
        karaf_feature.scan_lines n v (Py.split_on Py.newline out) =
          existsb (fun r => present_record n r
                            && (if Py.truthy v
                                then String.eqb
                                       (Py.replace "_" "." (record_version r)) v
                                else true))
                  (feature_records out))
  /\ (forall header data,
        Py.split_on Py.newline out = [header; data] ->
        length (Py.split header) = 2 ->
        length (Py.split data) = 5 ->
        feature_records out =
          [(Py.item (Py.split data) 0, Py.item (Py.split data) 1,
            Py.item (Py.split data) 3)]).
Proof.
  assert (Hrec : forall lines,
            records_of_lines lines =
              flat_map (fun line =>
                          let t := Py.split line in
                          if Nat.ltb (length t) 4 then []
                          else [(Py.item t 0, Py.item t 1, Py.item t 3)])
                       lines).
  { induction lines as [|line lines IH]; simpl; [reflexivity|].
    rewrite feature_data_fields. cbv zeta.
    destruct (Nat.ltb (length (Py.split line)) 4); simpl; rewrite IH;
      reflexivity. }
  split; [apply Hrec|]. split.
  - intros n v. apply scan_lines_records.
  - intros header data Hlines Hh Hd.
    unfold feature_records, lines_of. rewrite Hrec, Hlines. simpl.
    rewrite Hh, Hd. reflexivity.
Qed.

Lemma C8_feature_listing_records_witness :
  feature_records ("Name Version" +:+ Script.nl
                   +:+ "camel-jms 2.18.1 x Installed extra")
    = [("camel-jms", "2.18.1", "Installed")].
Proof.
  apply (proj2 (proj2 (C8_feature_listing_records
                         ("Name Version" +:+ Script.nl
                          +:+ "camel-jms 2.18.1 x Installed extra")))
               "Name Version" "camel-jms 2.18.1 x Installed extra");
    reflexivity.
Defined.

(** C4: when a version is asked for, a record answers the installed-check
    when it is a record of the feature, not uninstalled, and its version
    with every [_] turned into [.] equals the wanted version with every [-]
    turned into [.]; so wanting 2.18.1-SNAPSHOT is met by a record of
    version 2.18.1.SNAPSHOT. *)
Theorem C4_version_normalization (out n : string) :
  (forall v, v <> "" ->
     karaf_feature.installed_in out n (Some v) =
       existsb (fun r => present_record n r
                         && String.eqb (Py.replace "_" "." (record_version r))
                                       (Py.replace "-" "." v))
               (feature_records out))
  /\ (forall state,
        In (n, "2.18.1.SNAPSHOT", state) (feature_records out) ->
        state <> "Uninstalled" ->
        karaf_feature.installed_in out n (Some "2.18.1-SNAPSHOT") = true).
Proof.
  assert (Hgen : forall v, v <> "" ->
     karaf_feature.installed_in out n (Some v) =
       existsb (fun r => present_record n r
                         && String.eqb (Py.replace "_" "." (record_version r))
                                       (Py.replace "-" "." v))
               (feature_records out)).
  { intros v Hv. unfold karaf_feature.installed_in.
    rewrite (truthy_true v Hv), scan_lines_records, truthy_replace,
      (truthy_true v Hv). reflexivity. }
  split; [exact Hgen|].
  intros state Hin Hstate. rewrite Hgen by discriminate.
  apply existsb_exists. exists (n, "2.18.1.SNAPSHOT", state).
  split; [exact Hin|]. simpl.
  rewrite String.eqb_refl. apply String.eqb_neq in Hstate.
  rewrite Hstate. reflexivity.
Qed.

Lemma C4_version_normalization_witness :
  karaf_feature.installed_in "camel-jms 2.18.1_1 x Installed"
    "camel-jms" (Some "2.18.1-1")
    = existsb (fun r => present_record "camel-jms" r
                        && String.eqb (Py.replace "_" "." (record_version r))
                                      (Py.replace "-" "." "2.18.1-1"))
              (feature_records "camel-jms 2.18.1_1 x Installed")
  /\ karaf_feature.installed_in "camel-jms 2.18.1.SNAPSHOT x Installed"
       "camel-jms" (Some "2.18.1-SNAPSHOT") = true.
Proof.
  split.
  - apply (proj1 (C4_version_normalization
                    "camel-jms 2.18.1_1 x Installed" "camel-jms")
                 "2.18.1-1").
    discriminate.
  - apply (proj2 (C4_version_normalization
                    "camel-jms 2.18.1.SNAPSHOT x Installed" "camel-jms")
                 "Installed").
    + vm_compute. left. reflexivity.
    + discriminate.
Defined.

(** C9: the installed-check asked with the empty string as version is
    the installed-check asked with no version, and either is met by any
    record of the feature that is not uninstalled, whatever its version. *)
Theorem C9_empty_version_is_no_version `{Host}
    (client_bin_with_args : option string) (n : string) :
  karaf_feature.is_feature_installed client_bin_with_args n (Some "")
    = karaf_feature.is_feature_installed client_bin_with_args n None
  /\ (forall out,
        karaf_feature.installed_in out n (Some "")
          = karaf_feature.installed_in out n None
        /\ karaf_feature.installed_in out n None
          = existsb (present_record n) (feature_records out)).
Proof.
  split; [reflexivity|]. intros out. split; [reflexivity|].
  unfold karaf_feature.installed_in. simpl Py.replace.
  rewrite scan_lines_records. unfold feature_records, lines_of.
  apply existsb_pointwise. intros r. simpl. apply andb_true_r.
Qed.

(** ** Runs of the modules *)

Section Runs.
Context `{Host}.

Lemma silent_ret {A} (a : A) : silent (Rt.ret a).
Proof. intros s. reflexivity. Qed.

Lemma silent_raise {A} (e : string) : silent (@Rt.raise _ A e).
Proof. intros s. reflexivity. Qed.

Lemma silent_bind {A B} (m : Rt.M A) (k : A -> Rt.M B) :
  silent m -> (forall a, silent (k a)) -> silent (Rt.bind m k).
Proof.
  intros Hm Hk s. unfold Rt.bind. specialize (Hm s).
  destruct (m s) as [[a|msg|r|e] s']; simpl in Hm; subst s';
    [apply Hk|reflexivity..].
Qed.

Lemma silent_add_option (acc : option string) (flag : string)
    (value : option string) : silent (Rt.add_option acc flag value).
Proof.
  destruct value as [v|]; [destruct acc|]; simpl;
    auto using @silent_ret, @silent_raise.
Qed.

Lemma feature_check_silent (client_bin : string) :
  silent (karaf_feature.check_client_bin_path client_bin).
Proof.
  unfold karaf_feature.check_client_bin_path.
  repeat match goal with |- context [if ?b then _ else _] => destruct b end;
    auto using @silent_ret, @silent_raise.
Qed.

Lemma repo_check_silent (client_bin : string) :
  silent (karaf_repo.check_client_bin_path client_bin).
Proof.
  unfold karaf_repo.check_client_bin_path.
  repeat match goal with |- context [if ?b then _ else _] => destruct b end;
    auto using @silent_ret, @silent_raise.
Qed.

(** Resolving the client and appending the connection options talks to
    nobody. *)
Lemma feature_client_command_silent (p : karaf_feature.params) :
  silent (karaf_feature.client_command p).
Proof.
  unfold karaf_feature.client_command.
  repeat (apply silent_bind; [|intros ?]);
    auto using feature_check_silent, silent_add_option.
Qed.

Lemma repo_client_command_silent (p : karaf_repo.params) :
  silent (karaf_repo.client_command p).
Proof.
  unfold karaf_repo.client_command.
  repeat (apply silent_bind; [|intros ?]);
    auto using repo_check_silent, silent_add_option.
Qed.

Lemma silent_result {A} (m : Rt.M A) (s : Rt.st) (a : A) :
  silent m -> fst (m s) = Ret a -> m s = (Ret a, s).
Proof.
  intros Hm Ha. specialize (Hm s). destruct (m s) as [o s'].
  simpl in *. congruence.
Qed.

Lemma run_result (cmd : string) (s : Rt.st) (r : Z * string * string)
    (w' : World) :
  run_command cmd (Rt.world s) = (r, w') ->
  Rt.run cmd s = (Ret r, Rt.St w' (Rt.trace s ++ [Run cmd])).
Proof. intros Hr. unfold Rt.run. rewrite Hr. reflexivity. Qed.

Lemma run_with_check_result (cmd : string) (s : Rt.st) (rc : Z)
    (out err : string) (w' : World) :
  run_command cmd (Rt.world s) = ((rc, out, err), w') ->
  karaf_repo.run_with_check cmd s =
    (if healthy (rc, out, err) then Ret out else FailJson out,
     Rt.St w' (Rt.trace s ++ [Run cmd])).
Proof.
  intros Hr. unfold karaf_repo.run_with_check, Rt.bind.
  rewrite (run_result _ _ _ _ Hr). unfold healthy.
  destruct (Z.eqb rc 0); simpl; [|reflexivity].
  destruct (Py.contains "Error executing command" out); simpl;
    [reflexivity|].
  destruct (Py.contains "Command not found" out); reflexivity.
Qed.

Lemma get_existing_repos_result (cb : option string) (s : Rt.st) (rc : Z)
    (out err : string) (w' : World) :
  run_command (karaf_repo.repo_list_command cb) (Rt.world s)
    = ((rc, out, err), w') ->
  karaf_repo.get_existing_repos cb s =
    (if healthy (rc, out, err) then Ret (karaf_repo.repos_in out)
     else FailJson out,
     Rt.St w' (Rt.trace s ++ [Run (karaf_repo.repo_list_command cb)])).
Proof.
  intros Hr. unfold karaf_repo.get_existing_repos, Rt.bind.
  rewrite (run_with_check_result _ _ _ _ _ _ Hr).
  destruct (healthy (rc, out, err)); reflexivity.
Qed.

Lemma is_feature_installed_result (cb : option string) (n : string)
    (v : option string) (s : Rt.st) (rc : Z) (out err : string)
    (w' : World) :
  run_command (karaf_feature.CLIENT_KARAF_COMMAND cb "list -i --no-format")
              (Rt.world s) = ((rc, out, err), w') ->
  karaf_feature.is_feature_installed cb n v s =
    (Ret (karaf_feature.installed_in out n v),
     Rt.St w' (Rt.trace s
               ++ [Run (karaf_feature.CLIENT_KARAF_COMMAND cb
                          "list -i --no-format")])).
Proof.
  intros Hr. unfold karaf_feature.is_feature_installed, Rt.bind.
  rewrite (run_result _ _ _ _ Hr). reflexivity.
Qed.

(** C5: when the first listing shows the feature installed (at the
    wanted version when one is given) and the wanted state is present, or
    shows it not installed and the wanted state is absent, the feature
    module exits with changed = false and the listing is the only command
    it ran; the same for the repository module once its listing succeeds
    and shows the url present, respectively absent. *)
Theorem C5_idempotence :
  (forall (p : karaf_feature.params) (w w' : World) cb rc out err,
      fst (karaf_feature.client_command p (Rt.St w [])) = Ret cb ->
      run_command (karaf_feature.CLIENT_KARAF_COMMAND cb "list -i --no-format")
                  w = ((rc, out, err), w') ->
      (karaf_feature.p_state p = "present"
       /\ karaf_feature.installed_in out (karaf_feature.p_name p)
            (karaf_feature.p_version p) = true)
      \/ (karaf_feature.p_state p = "absent"
          /\ karaf_feature.installed_in out (karaf_feature.p_name p)
               (karaf_feature.p_version p) = false) ->
      Rt.exec (karaf_feature.main p) w =
        (ExitJson [("changed", Py.PBool false); ("cmd", Py.PStr "");
                   ("name", Py.PStr (karaf_feature.p_name p));
                   ("state", Py.PStr (karaf_feature.p_state p));
                   ("stdout", Py.PStr ""); ("stderr", Py.PStr "")],
         [Run (karaf_feature.CLIENT_KARAF_COMMAND cb "list -i --no-format")]))
  /\ (forall (p : karaf_repo.params) (w w' : World) cb rc out err,
      fst (karaf_repo.client_command p (Rt.St w [])) = Ret cb ->
      run_command (karaf_repo.repo_list_command cb) w = ((rc, out, err), w') ->
      healthy (rc, out, err) = true ->
      (karaf_repo.p_state p = "present"
       /\ karaf_repo.member (karaf_repo.p_url p) (karaf_repo.repos_in out)
            = true)
      \/ (karaf_repo.p_state p = "absent"
          /\ karaf_repo.member (karaf_repo.p_url p) (karaf_repo.repos_in out)
               = false) ->
      Rt.exec (karaf_repo.main p) w =
        (ExitJson [("changed", Py.PBool false);
                   ("original_message", Py.PStr "");
                   ("message", Py.PStr "")],
         [Run (karaf_repo.repo_list_command cb)])).
Proof.
  split.
  - intros p w w' cb rc out err Hcb Hrun Hcase.
    unfold Rt.exec, karaf_feature.main, Rt.bind.
    rewrite (silent_result _ _ _ (feature_client_command_silent p) Hcb).
    rewrite (is_feature_installed_result _ _ _ (Rt.St w []) _ _ _ _ Hrun).
    destruct Hcase as [[Hs Hi]|[Hs Hi]]; rewrite Hs, Hi; reflexivity.
  - intros p w w' cb rc out err Hcb Hrun Hok Hcase.
    unfold Rt.exec, karaf_repo.main, Rt.bind.
    rewrite (silent_result _ _ _ (repo_client_command_silent p) Hcb).
    rewrite (get_existing_repos_result _ (Rt.St w []) _ _ _ _ Hrun), Hok.
    destruct Hcase as [[Hs Hi]|[Hs Hi]]; rewrite Hs, Hi; reflexivity.
Qed.


(** C6: with the wanted state refresh, once the listing has succeeded:
    when the url is not in it, the run fails with the message that the
    repository cannot be refreshed and the listing is the only command
    that ran; when the url is in it, the repo-refresh command runs next
    and is the last command of the run, which exits with changed = true
    when that command succeeds and fails with its output when not. *)
Theorem C6_refresh (p : karaf_repo.params) (w w1 : World)
    (cb : option string) (rc : Z) (out err : string) :
  karaf_repo.p_state p = "refresh" ->
  fst (karaf_repo.client_command p (Rt.St w [])) = Ret cb ->
  run_command (karaf_repo.repo_list_command cb) w = ((rc, out, err), w1) ->
  healthy (rc, out, err) = true ->
  let url := karaf_repo.p_url p in
  let refresh :=
    karaf_repo.CLIENT_KARAF_COMMAND_WITH_ARGS cb "repo-refresh" url in
  (karaf_repo.member url (karaf_repo.repos_in out) = false ->
     Rt.exec (karaf_repo.main p) w =
       (FailJson (karaf_repo.not_available url),
        [Run (karaf_repo.repo_list_command cb)]))
  /\ (karaf_repo.member url (karaf_repo.repos_in out) = true ->
      forall rc2 out2 err2 w2,
        run_command refresh w1 = ((rc2, out2, err2), w2) ->
        Rt.exec (karaf_repo.main p) w =
          (if healthy (rc2, out2, err2)
           then ExitJson (karaf_repo.changed_result out2 refresh)
           else FailJson out2,
           [Run (karaf_repo.repo_list_command cb); Run refresh])).
Proof.
  intros Hs Hcb Hrun Hok url refresh. split.
  - intros Hm. unfold Rt.exec, karaf_repo.main, Rt.bind.
    rewrite (silent_result _ _ _ (repo_client_command_silent p) Hcb).
    rewrite (get_existing_repos_result _ (Rt.St w []) _ _ _ _ Hrun), Hok.
    fold url. rewrite Hs, Hm. reflexivity.
  - intros Hm rc2 out2 err2 w2 Hrun2.
    unfold Rt.exec, karaf_repo.main, Rt.bind.
    rewrite (silent_result _ _ _ (repo_client_command_silent p) Hcb).
    rewrite (get_existing_repos_result _ (Rt.St w []) _ _ _ _ Hrun), Hok.
    fold url. rewrite Hs, Hm. simpl.
    unfold karaf_repo.refresh_repo, Rt.bind.
    rewrite (run_with_check_result _ (Rt.St w1 _) _ _ _ _ Hrun2).
    destruct (healthy (rc2, out2, err2)); reflexivity.
Qed.

(** C7 as amended: when the wanted state is absent, the listing shows
    the url and the repo-remove command succeeds, the run sleeps 20
    seconds once, lists the repositories once more and runs nothing
    else; it fails with the message
    Repo ("<url>") is still installed when that listing shows the url,
    and exits with changed = true, the command text and the output of
    repo-remove when it does not. *)
Theorem C7_remove_then_verify (p : karaf_repo.params) (w w1 w2 w3 : World)
    (cb : option string) (rc1 rc2 rc3 : Z)
    (out1 err1 out2 err2 out3 err3 : string) :
  karaf_repo.p_state p = "absent" ->
  fst (karaf_repo.client_command p (Rt.St w [])) = Ret cb ->
  let url := karaf_repo.p_url p in
  let listing := karaf_repo.repo_list_command cb in
  let remove :=
    karaf_repo.CLIENT_KARAF_COMMAND_WITH_ARGS cb "repo-remove" url in
  run_command listing w = ((rc1, out1, err1), w1) ->
  healthy (rc1, out1, err1) = true ->
  karaf_repo.member url (karaf_repo.repos_in out1) = true ->
  run_command remove w1 = ((rc2, out2, err2), w2) ->
  healthy (rc2, out2, err2) = true ->
  run_command listing w2 = ((rc3, out3, err3), w3) ->
  Rt.exec (karaf_repo.main p) w =
    (if healthy (rc3, out3, err3) then
       if karaf_repo.member url (karaf_repo.repos_in out3)
       then FailJson ("Repo (" +:+ Py.dquote +:+ url +:+ Py.dquote
                       +:+ ") is still installed")
       else ExitJson (karaf_repo.changed_result out2 remove)
     else FailJson out3,
     [Run listing; Run remove; Sleep 20; Run listing]).
Proof.
  intros Hs Hcb url listing remove Hrun1 Hok1 Hm1 Hrun2 Hok2 Hrun3.
  unfold Rt.exec, karaf_repo.main, Rt.bind.
  rewrite (silent_result _ _ _ (repo_client_command_silent p) Hcb).
  rewrite (get_existing_repos_result _ (Rt.St w []) _ _ _ _ Hrun1), Hok1.
  fold url. rewrite Hs, Hm1. simpl.
  unfold karaf_repo.remove_repo, Rt.bind.
  rewrite (run_with_check_result _ (Rt.St w1 _) _ _ _ _ Hrun2), Hok2.
  simpl.
  rewrite (get_existing_repos_result _ (Rt.St w2 _) _ _ _ _ Hrun3).
  destruct (healthy (rc3, out3, err3)); [|reflexivity].
  destruct (karaf_repo.member url (karaf_repo.repos_in out3)); reflexivity.
Qed.

End Runs.

(** ** The repository listing *)

Lemma add_line_pair (m : gmap string karaf_repo.repo) (line n u : string) :
  Py.split line = [n; u] ->
  karaf_repo.add_line m line = <[u := karaf_repo.Repo n u]> m.
Proof.
  intros Hs. unfold karaf_repo.add_line.
  assert (Hn : Py.strip n = n)
    by (apply (strip_token line); rewrite Hs; simpl; auto).
  assert (Hu : Py.strip u = u)
    by (apply (strip_token line); rewrite Hs; simpl; auto).
  rewrite Hs. change (Py.item [n; u] 0) with n.
  change (Py.item [n; u] 1) with u. rewrite Hn, Hu. reflexivity.
Qed.

Lemma add_line_other (m : gmap string karaf_repo.repo) (line u : string) :
  (forall n, Py.split line <> [n; u]) ->
  karaf_repo.add_line m line !! u = m !! u.
Proof.
  intros Hne. unfold karaf_repo.add_line.
  destruct (Py.split line) as [|a [|b [|c t]]] eqn:Hs; try reflexivity.
  assert (Hb : Py.strip b = b)
    by (apply (strip_token line); rewrite Hs; simpl; auto).
  change (Py.item [a; b] 1) with b. rewrite Hb.
  cbn [length Nat.eqb negb]. apply lookup_insert_ne.
  intros ->. apply (Hne a). reflexivity.
Qed.

Lemma add_line_keys (m : gmap string karaf_repo.repo) (line : string) :
  (forall u r, m !! u = Some r -> karaf_repo.url r = u) ->
  forall u r, karaf_repo.add_line m line !! u = Some r -> karaf_repo.url r = u.
Proof.
  intros Hm u r. unfold karaf_repo.add_line.
  destruct (negb (Nat.eqb (length (Py.split line)) 2)); [apply Hm|].
  cbv zeta.
  destruct (decide (Py.strip (Py.item (Py.split line) 1) = u)) as [<-|Hne].
  - rewrite lookup_insert_eq. intros [= <-]. reflexivity.
  - rewrite lookup_insert_ne by exact Hne. apply Hm.
Qed.

Lemma fold_add_line_keys (lines : list string) :
  forall m : gmap string karaf_repo.repo,
    (forall u r, m !! u = Some r -> karaf_repo.url r = u) ->
    forall u r, fold_left karaf_repo.add_line lines m !! u = Some r ->
                karaf_repo.url r = u.
Proof.
  induction lines as [|line lines IH]; intros m Hm; simpl; [exact Hm|].
  apply IH, add_line_keys, Hm.
Qed.

Lemma fold_add_line_other (lines : list string) (u : string) :
  (forall l n, In l lines -> Py.split l <> [n; u]) ->
  forall m : gmap string karaf_repo.repo,
    fold_left karaf_repo.add_line lines m !! u = m !! u.
Proof.
  induction lines as [|line lines IH]; intros Hne m; simpl; [reflexivity|].
  rewrite IH by (intros l n Hin; apply Hne; right; exact Hin).
  apply add_line_other. intros n. apply Hne. left. reflexivity.
Qed.

(** C10: in the mapping built from a repository listing every entry is
    stored under the url of its record, and the entry of a url is the
    record of the last line that splits into exactly a name and that url:
    lines before it, also with the same url, leave no trace. *)
Theorem C10_repos_keyed_by_url (out : string) :
  (forall u r, karaf_repo.repos_in out !! u = Some r -> karaf_repo.url r = u)
  /\ (forall before line after n u,
        Py.split_on Py.newline out = (before ++ line :: after)%list ->
        Py.split line = [n; u] ->
        (forall l n', In l after -> Py.split l <> [n'; u]) ->
        karaf_repo.repos_in out !! u = Some (karaf_repo.Repo n u)).
Proof.
  split.
  - apply fold_add_line_keys. intros u r. rewrite lookup_empty. discriminate.
  - intros before line after n u Hlines Hline Hlast.
    unfold karaf_repo.repos_in. rewrite Hlines, fold_left_app. simpl.
    rewrite (fold_add_line_other after u Hlast), (add_line_pair _ _ n u Hline).
    apply lookup_insert_eq.
Qed.

Lemma C10_repos_keyed_by_url_witness :
  karaf_repo.url (karaf_repo.Repo "b" "u") = "u"
  /\ karaf_repo.repos_in
       ("a u" +:+ Script.nl +:+ "b u" +:+ Script.nl +:+ "c d e")
       !! "u" = Some (karaf_repo.Repo "b" "u").
Proof.
  split.
  - apply (proj1 (C10_repos_keyed_by_url
                    ("a u" +:+ Script.nl +:+ "b u" +:+ Script.nl +:+ "c d e"))
                 "u" (karaf_repo.Repo "b" "u")).
    vm_compute. reflexivity.
  - apply (proj2 (C10_repos_keyed_by_url
                    ("a u" +:+ Script.nl +:+ "b u" +:+ Script.nl +:+ "c d e"))
                 ["a u"] "b u" ["c d e"] "b" "u").
    + reflexivity.
    + reflexivity.
    + intros l n' [<-|[]]. vm_compute. discriminate.
Defined.

(** ** Runs on the scripted host *)

Lemma C5_idempotence_witness :
  (@Rt.exec Demo.installed _
      (karaf_feature.main (Demo.feature (Some "2.18.1") "present"))
      [Demo.ok "camel-jms 2.18.1 x Installed"]
     = (ExitJson [("changed", Py.PBool false); ("cmd", Py.PStr "");
                  ("name", Py.PStr "camel-jms"); ("state", Py.PStr "present");
                  ("stdout", Py.PStr ""); ("stderr", Py.PStr "")],
        [Run Demo.feature_list])
   /\ @Rt.exec Demo.installed _
        (karaf_feature.main (Demo.feature None "absent"))
        [Demo.ok "camel-jms 2.18.1 x Uninstalled"]
     = (ExitJson [("changed", Py.PBool false); ("cmd", Py.PStr "");
                  ("name", Py.PStr "camel-jms"); ("state", Py.PStr "absent");
                  ("stdout", Py.PStr ""); ("stderr", Py.PStr "")],
        [Run Demo.feature_list]))
  /\ (@Rt.exec Demo.installed _ (karaf_repo.main (Demo.repository "present"))
        [Demo.ok "x mvn:x/1.0/xml/features"]
     = (ExitJson [("changed", Py.PBool false);
                  ("original_message", Py.PStr ""); ("message", Py.PStr "")],
        [Run Demo.repo_list])
     /\ @Rt.exec Demo.installed _ (karaf_repo.main (Demo.repository "absent"))
          [Demo.ok "camel mvn:y/2.0/xml/features"]
       = (ExitJson [("changed", Py.PBool false);
                    ("original_message", Py.PStr ""); ("message", Py.PStr "")],
          [Run Demo.repo_list])).
Proof.
  split; split.
  - apply (proj1 (@C5_idempotence Demo.installed)
             (Demo.feature (Some "2.18.1") "present")
             [Demo.ok "camel-jms 2.18.1 x Installed"] []
             Demo.client 0%Z "camel-jms 2.18.1 x Installed" "").
    + reflexivity.
    + reflexivity.
    + left. split; reflexivity.
  - apply (proj1 (@C5_idempotence Demo.installed)
             (Demo.feature None "absent")
             [Demo.ok "camel-jms 2.18.1 x Uninstalled"] []
             Demo.client 0%Z "camel-jms 2.18.1 x Uninstalled" "").
    + reflexivity.
    + reflexivity.
    + right. split; reflexivity.
  - apply (proj2 (@C5_idempotence Demo.installed)
             (Demo.repository "present")
             [Demo.ok "x mvn:x/1.0/xml/features"] []
             Demo.client 0%Z "x mvn:x/1.0/xml/features" "").
    + reflexivity.
    + reflexivity.
    + reflexivity.
    + left. split; reflexivity.
  - apply (proj2 (@C5_idempotence Demo.installed)
             (Demo.repository "absent")
             [Demo.ok "camel mvn:y/2.0/xml/features"] []
             Demo.client 0%Z "camel mvn:y/2.0/xml/features" "").
    + reflexivity.
    + reflexivity.
    + reflexivity.
    + right. split; reflexivity.
Defined.

Lemma C6_refresh_witness :
  @Rt.exec Demo.installed _ (karaf_repo.main (Demo.repository "refresh"))
     [Demo.ok "camel mvn:y/2.0/xml/features"]
    = (FailJson (karaf_repo.not_available "mvn:x/1.0/xml/features"),
       [Run Demo.repo_list])
  /\ @Rt.exec Demo.installed _ (karaf_repo.main (Demo.repository "refresh"))
       [Demo.ok "x mvn:x/1.0/xml/features"; Demo.ok "refreshed"]
    = (ExitJson
         (karaf_repo.changed_result "refreshed"
            "/opt/karaf/bin/client 'feature:repo-refresh mvn:x/1.0/xml/features'"),
       [Run Demo.repo_list;
        Run "/opt/karaf/bin/client 'feature:repo-refresh mvn:x/1.0/xml/features'"]).
Proof.
  split.
  - apply (proj1 (@C6_refresh Demo.installed (Demo.repository "refresh")
                    [Demo.ok "camel mvn:y/2.0/xml/features"] []
                    Demo.client 0%Z "camel mvn:y/2.0/xml/features" ""
                    eq_refl eq_refl eq_refl eq_refl)).
    reflexivity.
  - apply (proj2 (@C6_refresh Demo.installed (Demo.repository "refresh")
                    [Demo.ok "x mvn:x/1.0/xml/features"; Demo.ok "refreshed"]
                    [Demo.ok "refreshed"]
                    Demo.client 0%Z "x mvn:x/1.0/xml/features" ""
                    eq_refl eq_refl eq_refl eq_refl)
             eq_refl 0%Z "refreshed" "" []).
    reflexivity.
Defined.

Lemma C7_remove_then_verify_witness :
  @Rt.exec Demo.installed _ (karaf_repo.main (Demo.repository "absent"))
     [Demo.ok "x mvn:x/1.0/xml/features"; Demo.ok "removed";
      Demo.ok "camel mvn:y/2.0/xml/features"]
    = (ExitJson
         (karaf_repo.changed_result "removed"
            "/opt/karaf/bin/client 'feature:repo-remove mvn:x/1.0/xml/features'"),
       [Run Demo.repo_list;
        Run "/opt/karaf/bin/client 'feature:repo-remove mvn:x/1.0/xml/features'";
        Sleep 20;
        Run Demo.repo_list]).
Proof.
  apply (@C7_remove_then_verify Demo.installed (Demo.repository "absent")
           [Demo.ok "x mvn:x/1.0/xml/features"; Demo.ok "removed";
            Demo.ok "camel mvn:y/2.0/xml/features"]
           [Demo.ok "removed"; Demo.ok "camel mvn:y/2.0/xml/features"]
           [Demo.ok "camel mvn:y/2.0/xml/features"] []
           Demo.client 0%Z 0%Z 0%Z
           "x mvn:x/1.0/xml/features" "" "removed" ""
           "camel mvn:y/2.0/xml/features" "");
    reflexivity.
Defined.

(** C7 as stated fails on the message: the url still listed after a
    successful repo-remove, the run fails with a message that names the
    url, not with the bare text of the claim. *)
Lemma C7_message_counterexample :
  let r := @Rt.exec Demo.installed _
             (karaf_repo.main (Demo.repository "absent"))
             [Demo.ok "x mvn:x/1.0/xml/features"; Demo.ok "removed";
              Demo.ok "x mvn:x/1.0/xml/features"] in
  snd r = [Run Demo.repo_list;
           Run "/opt/karaf/bin/client 'feature:repo-remove mvn:x/1.0/xml/features'";
           Sleep 20;
           Run Demo.repo_list]
  /\ fst r = FailJson ("Repo (" +:+ Py.dquote +:+ "mvn:x/1.0/xml/features"
                        +:+ Py.dquote +:+ ") is still installed")
  /\ fst r <> FailJson "Repo is still installed".
Proof.
  cbv zeta. split; [reflexivity|]. split; [reflexivity|].
  vm_compute. discriminate.
Qed.

(** ** Where the modules part from each other *)

Section Failures.
Context `{Host}.

(** The repository inspector stops the run on a failed listing. *)
Lemma get_existing_repos_failure (cb : option string) (s : Rt.st) (rc : Z)
    (out err : string) (w' : World) :
  run_command (karaf_repo.repo_list_command cb) (Rt.world s)
    = ((rc, out, err), w') ->
  healthy (rc, out, err) = false ->
  fst (karaf_repo.get_existing_repos cb s) = FailJson out.
Proof.
  intros Hr Hbad. rewrite (get_existing_repos_result _ _ _ _ _ _ Hr), Hbad.
  reflexivity.
Qed.

(** The feature inspector answers from the output whatever the exit
    code. *)
Lemma is_feature_installed_returns (cb : option string) (n : string)
    (v : option string) (s : Rt.st) :
  exists b, fst (karaf_feature.is_feature_installed cb n v s) = Ret b.
Proof.
  destruct (run_command
              (karaf_feature.CLIENT_KARAF_COMMAND cb "list -i --no-format")
              (Rt.world s)) as [[[rc out] err] w'] eqn:Hr.
  rewrite (is_feature_installed_result _ _ _ _ _ _ _ _ Hr). eauto.
Qed.

(** A failed install reports the extracted reason. *)
Lemma install_feature_failure (cb : option string) (n : string)
    (v : option string) (s : Rt.st) (rc : Z) (out err : string)
    (w' : World) :
  run_command (karaf_feature.CLIENT_KARAF_COMMAND_WITH_ARGS cb "install"
                 (karaf_feature.full_qualified_name n v)) (Rt.world s)
    = ((rc, out, err), w') ->
  rc <> 0%Z ->
  fst (karaf_feature.install_feature cb n v s)
    = FailJson (karaf_feature.parse_error out).
Proof.
  intros Hr Hrc. unfold karaf_feature.install_feature, Rt.bind.
  change (Py.getitem karaf_feature.PACKAGE_STATE_MAP "present")
    with "install".
  rewrite (run_result _ _ _ _ Hr).
  apply Z.eqb_neq in Hrc. rewrite Hrc. reflexivity.
Qed.

(** The paths the check supports, and the one it rejects. *)
Lemma check_client_bin_path_file (client_bin : string) (s : Rt.st) :
  isfile client_bin = true ->
  karaf_feature.check_client_bin_path client_bin s = (Ret (Some client_bin), s)
  /\ karaf_repo.check_client_bin_path client_bin s = (Ret (Some client_bin), s).
Proof.
  intros Hf.
  unfold karaf_feature.check_client_bin_path,
    karaf_repo.check_client_bin_path.
  rewrite Hf. split; reflexivity.
Qed.

Lemma check_client_bin_path_dir (client_bin : string) (s : Rt.st) :
  isfile client_bin = false ->
  isdir client_bin = true ->
  isfile (Rt.path_join client_bin "bin/client") = true ->
  karaf_feature.check_client_bin_path client_bin s
    = (Ret (Some (Rt.path_join client_bin "bin/client")), s)
  /\ karaf_repo.check_client_bin_path client_bin s
    = (Ret (Some (Rt.path_join client_bin "bin/client")), s).
Proof.
  intros Hf Hd Ht.
  unfold karaf_feature.check_client_bin_path,
    karaf_repo.check_client_bin_path.
  rewrite Hf, Hd, Ht. split; reflexivity.
Qed.

Lemma check_client_bin_path_unsupported (client_bin : string) (s : Rt.st) :
  isfile client_bin = false ->
  isdir client_bin = false ->
  karaf_feature.check_client_bin_path client_bin s
    = (Raise ("client_bin parameter not supported: " +:+ client_bin), s)
  /\ karaf_repo.check_client_bin_path client_bin s
    = (Raise ("client_bin parameter not supported: " +:+ client_bin), s).
Proof.
  intros Hf Hd.
  unfold karaf_feature.check_client_bin_path,
    karaf_repo.check_client_bin_path.
  rewrite Hf, Hd. split; reflexivity.
Qed.

(** A directory without bin/client is handed back as [None]. *)
Lemma check_client_bin_path_none (client_bin : string) (s : Rt.st) :
  isfile client_bin = false ->
  isdir client_bin = true ->
  isfile (Rt.path_join client_bin "bin/client") = false ->
  karaf_feature.check_client_bin_path client_bin s = (Ret None, s)
  /\ karaf_repo.check_client_bin_path client_bin s = (Ret None, s).
Proof.
  intros Hf Hd Ht.
  unfold karaf_feature.check_client_bin_path,
    karaf_repo.check_client_bin_path.
  rewrite Hf, Hd, Ht. split; reflexivity.
Qed.

End Failures.

(** C1: the listing answered with exit code 1 and the marker
    Error executing command: the repository inspector stops the run with
    a failure, the feature inspector returns false, and the feature module
    goes on to run the install command. *)
Theorem C1_feature_inspector_ignores_failure :
  @Rt.exec Demo.installed _ (karaf_repo.get_existing_repos Demo.client)
     [(1%Z, "Error executing command: connection refused", "")]
    = (FailJson "Error executing command: connection refused",
       [Run Demo.repo_list])
  /\ @Rt.exec Demo.installed _
       (karaf_feature.is_feature_installed Demo.client "camel-jms" None)
       [(1%Z, "Error executing command: connection refused", "")]
    = (Ret false, [Run Demo.feature_list])
  /\ snd (@Rt.exec Demo.installed _
            (karaf_feature.main (Demo.feature None "present"))
            [(1%Z, "Error executing command: connection refused", "")])
    = [Run Demo.feature_list;
       Run "/opt/karaf/bin/client 'feature:install camel-jms'"].
Proof. repeat split; reflexivity. Qed.

(** C2: for a directory that holds no bin/client, both modules get
    [None] from the path check, with no exception, and the feature module
    then runs commands whose program is the text None. *)
Theorem C2_directory_without_client_returns_none :
  @Rt.exec Demo.no_client _
     (karaf_feature.check_client_bin_path "/opt/karaf") []
    = (Ret None, [])
  /\ @Rt.exec Demo.no_client _
       (karaf_repo.check_client_bin_path "/opt/karaf") []
    = (Ret None, [])
  /\ snd (@Rt.exec Demo.no_client _
            (karaf_feature.main (Demo.feature None "present")) [])
    = [Run "None 'feature:list -i --no-format'";
       Run "None 'feature:install camel-jms'"].
Proof. repeat split; reflexivity. Qed.

(** C3: a repo-add that fails with a reason marker in its output: the
    repository module reports the whole output, where the extractor
    gives the text after the marker; the feature module reports the
    extracted text for the same answer of its install command. *)
Theorem C3_repo_failure_reports_raw_output :
  fst (@Rt.exec Demo.installed _ (karaf_repo.main (Demo.repository "present"))
         [Demo.ok "camel mvn:y/2.0/xml/features";
          (1%Z, "Error executing command: reason: disk full ", "")])
    = FailJson "Error executing command: reason: disk full "
  /\ karaf_repo.parse_error "Error executing command: reason: disk full "
    = "disk full"
  /\ fst (@Rt.exec Demo.installed _
            (karaf_feature.main (Demo.feature None "present"))
            [Demo.ok "";
             (1%Z, "Error executing command: reason: disk full ", "")])
    = FailJson "disk full".
Proof. repeat split; reflexivity. Qed.

(** ** End-to-end scenarios *)

(** The listing shows another version: the feature is installed and the
    second listing confirms it. *)
Example scenario_install_other_version :
  @Rt.exec Demo.installed _
     (karaf_feature.main (Demo.feature (Some "2.18.1") "present"))
     [Demo.ok "camel-jms 2.18.1.SNAPSHOT x Installed"; Demo.ok "done";
      Demo.ok "camel-jms 2.18.1 x Installed"]
    = (ExitJson
         [("changed", Py.PBool true);
          ("cmd", Py.PStr "/opt/karaf/bin/client 'feature:install camel-jms/2.18.1'");
          ("name", Py.PStr "camel-jms"); ("state", Py.PStr "present");
          ("stdout", Py.PStr "done"); ("stderr", Py.PStr "")],
       [Run Demo.feature_list;
        Run "/opt/karaf/bin/client 'feature:install camel-jms/2.18.1'";
        Run Demo.feature_list]).
Proof. reflexivity. Qed.

(** An install that the second listing does not confirm. *)
Example scenario_install_not_confirmed :
  fst (@Rt.exec Demo.installed _
         (karaf_feature.main (Demo.feature None "present"))
         [Demo.ok ""; Demo.ok "done"; Demo.ok ""])
    = FailJson "Feature fails to install".
Proof. reflexivity. Qed.

(** A repository that is added and then found in the listing. *)
Example scenario_repo_add :
  @Rt.exec Demo.installed _ (karaf_repo.main (Demo.repository "present"))
     [Demo.ok ""; Demo.ok "added"; Demo.ok "x mvn:x/1.0/xml/features"]
    = (ExitJson
         (karaf_repo.changed_result "added"
            "/opt/karaf/bin/client 'feature:repo-add mvn:x/1.0/xml/features'"),
       [Run Demo.repo_list;
        Run "/opt/karaf/bin/client 'feature:repo-add mvn:x/1.0/xml/features'";
        Run Demo.repo_list]).
Proof. reflexivity. Qed.

(** ** The reason extractor *)

Lemma append_assoc (a b c : string) : (a +:+ b) +:+ c = a +:+ (b +:+ c).
Proof.
  induction a as [|x a IH]; [reflexivity|].
  change (String x ((a +:+ b) +:+ c) = String x (a +:+ (b +:+ c))).
  rewrite IH. reflexivity.
Qed.

Lemma slice_from_app (pre t : string) (n : nat) :
  Py.slice_from (String.length pre + n) (pre +:+ t) = Py.slice_from n t.
Proof. induction pre as [|c pre IH]; simpl; [reflexivity|exact IH]. Qed.

(** The marker has no proper border: it cannot start inside a text that
    does not hold it and end inside a following copy of itself. *)
Lemma append_cons (c : ascii) (a b : string) :
  String c a +:+ b = String c (a +:+ b).
Proof. reflexivity. Qed.

Lemma append_nil (b : string) : "" +:+ b = b.
Proof. reflexivity. Qed.

Lemma marker_not_straddling (c : ascii) (x post : string) :
  String.prefix "reason: " (String c x) = false ->
  String.prefix "reason: " (String c x +:+ "reason: " +:+ post) = false.
Proof.
  intros Hx. rewrite !append_cons.
  do 7 (destruct x as [|? x];
        [ clear Hx; rewrite ?append_cons, ?append_nil; cbn [String.prefix];
          repeat match goal with
                 | |- context [ascii_dec ?a ?b] =>
                     destruct (ascii_dec a b) as [<-|?]; [|reflexivity]
                 end; reflexivity
        | rewrite append_cons ]).
  cbn [String.prefix] in *.
  repeat match goal with
         | |- context [ascii_dec ?a ?b] =>
             destruct (ascii_dec a b); [|reflexivity]
         end.
  destruct x; discriminate Hx.
Qed.

Lemma index_marker_first (pre post : string) :
  Py.contains "reason: " pre = false ->
  Py.index "reason: " (pre +:+ "reason: " +:+ post)
    = Some (String.length pre).
Proof.
  induction pre as [|c pre IH]; intros Hpre.
  - rewrite append_nil, !append_cons. cbn [Py.index String.prefix].
    repeat match goal with
           | |- context [ascii_dec ?a ?b] =>
               destruct (ascii_dec a b); [|congruence]
           end.
    destruct post; reflexivity.
  - unfold Py.contains in Hpre. cbn [Py.index] in Hpre.
    destruct (String.prefix "reason: " (String c pre)) eqn:Hp;
      [discriminate|].
    pose proof (marker_not_straddling c pre post Hp) as Hq.
    rewrite append_cons in Hq |- *. cbn [Py.index]. rewrite Hq.
    rewrite IH; [reflexivity|].
    unfold Py.contains.
    destruct (Py.index "reason: " pre); [discriminate|reflexivity].
Qed.

(** X1: a text that holds no marker is returned as it is, and when the
    marker follows such a text the extractor gives what comes after that
    first marker, stripped; the two modules carry the same extractor. *)
Theorem parse_error_first_marker (pre post : string) :
  Py.contains "reason: " pre = false ->
  karaf_feature.parse_error pre = pre
  /\ karaf_feature.parse_error (pre +:+ "reason: " +:+ post) = Py.strip post
  /\ karaf_repo.parse_error (pre +:+ "reason: " +:+ post) = Py.strip post.
Proof.
  intros Hpre.
  assert (Hcut : Py.slice_from (String.length pre + String.length "reason: ")
                   (pre +:+ "reason: " +:+ post) = post)
    by (rewrite slice_from_app; reflexivity).
  split; [|split].
  - unfold karaf_feature.parse_error, Py.contains in *. cbv zeta.
    destruct (Py.index "reason: " pre); [discriminate|reflexivity].
  - unfold karaf_feature.parse_error. cbv zeta.
    rewrite (index_marker_first pre post Hpre), Hcut. reflexivity.
  - unfold karaf_repo.parse_error. cbv zeta.
    rewrite (index_marker_first pre post Hpre), Hcut. reflexivity.
Qed.

Lemma parse_error_first_marker_witness :
  karaf_feature.parse_error "Error executing command" = "Error executing command"
  /\ karaf_feature.parse_error
       ("Unable to install: " +:+ "reason: " +:+ " disk full, reason: quota ")
     = Py.strip " disk full, reason: quota "
  /\ karaf_repo.parse_error
       ("Unable to install: " +:+ "reason: " +:+ " disk full, reason: quota ")
     = Py.strip " disk full, reason: quota ".
Proof.
  split; [|split].
  - apply (proj1 (parse_error_first_marker "Error executing command" "" eq_refl)).
  - apply (proj1 (proj2 (parse_error_first_marker "Unable to install: "
                           " disk full, reason: quota " eq_refl))).
  - apply (proj2 (proj2 (parse_error_first_marker "Unable to install: "
                           " disk full, reason: quota " eq_refl))).
Defined.

Lemma lstrip_head (s : string) :
  match Py.lstrip s with
  | "" => True
  | String c _ => Py.is_space c = false
  end.
Proof.
  induction s as [|c s IH]; simpl; [exact I|].
  destruct (Py.is_space c) eqn:Hc; [exact IH|exact Hc].
Qed.

Lemma rstrip_idempotent (s : string) : Py.rstrip (Py.rstrip s) = Py.rstrip s.
Proof.
  induction s as [|c s IH]; [reflexivity|].
  cbn [Py.rstrip].
  destruct (Py.rstrip s) as [|d r] eqn:Hr.
  - destruct (Py.is_space c) eqn:Hc; [reflexivity|].
    cbn [Py.rstrip]. rewrite Hc. reflexivity.
  - cbn [Py.rstrip] in IH |- *. 
    destruct (match Py.rstrip r with
              | "" => if Py.is_space d then "" else String d ""
              | String a s0 => String d (String a s0)
              end) eqn:Hd; [discriminate IH|].
    rewrite IH. reflexivity.
Qed.

Lemma lstrip_rstrip_head (t : string) :
  match t with "" => True | String c _ => Py.is_space c = false end ->
  Py.lstrip (Py.rstrip t) = Py.rstrip t.
Proof.
  destruct t as [|c t]; [reflexivity|]. intros Hc.
  cbn [Py.rstrip].
  destruct (Py.rstrip t); [rewrite Hc|]; cbn [Py.lstrip]; rewrite Hc;
    reflexivity.
Qed.

(** Stripping twice is stripping once. *)
Lemma strip_edges (s : string) :
  Py.lstrip (Py.strip s) = Py.strip s /\ Py.rstrip (Py.strip s) = Py.strip s.
Proof.
  unfold Py.strip. split.
  - apply lstrip_rstrip_head, lstrip_head.
  - apply rstrip_idempotent.
Qed.

(** X2: when the output holds the marker, the extracted reason neither
    starts nor ends with whitespace. *)
Theorem parse_error_trimmed (s : string) :
  Py.contains "reason: " s = true ->
  Py.lstrip (karaf_feature.parse_error s) = karaf_feature.parse_error s
  /\ Py.rstrip (karaf_feature.parse_error s) = karaf_feature.parse_error s.
Proof.
  unfold Py.contains, karaf_feature.parse_error. cbv zeta.
  destruct (Py.index "reason: " s); [|discriminate].
  intros _. apply strip_edges.
Qed.

Lemma parse_error_trimmed_witness :
  Py.lstrip (karaf_feature.parse_error "x reason:   disk full  ")
    = karaf_feature.parse_error "x reason:   disk full  "
  /\ Py.rstrip (karaf_feature.parse_error "x reason:   disk full  ")
    = karaf_feature.parse_error "x reason:   disk full  ".
Proof. apply (parse_error_trimmed "x reason:   disk full  "). reflexivity. Defined.

(** ** The client command *)

Section Client.
Context `{Host}.

Lemma append_empty (a : string) : a +:+ "" = a.
Proof.
  induction a as [|c a IH]; [reflexivity|].
  rewrite append_cons, IH. reflexivity.
Qed.

Ltac options_cases :=
  unfold Rt.bind, Rt.add_option, Rt.ret, Rt.raise, options_text, option_text;
  cbn [karaf_feature.p_host karaf_feature.p_port karaf_feature.p_user
       karaf_feature.p_password karaf_feature.p_delay karaf_feature.p_retry
       karaf_repo.p_host karaf_repo.p_port karaf_repo.p_user
       karaf_repo.p_password karaf_repo.p_delay karaf_repo.p_retry];
  rewrite ?append_assoc, ?append_nil, ?append_empty.

(** X3: once the path check gives a client, the command prefix is that
    client followed by the options that are given, each behind its flag, in
    the order -h, -a, -u, -p, -d, -r; an option that is not given adds
    nothing. *)
Theorem client_command_options (p : karaf_feature.params)
    (q : karaf_repo.params) (s : Rt.st) (path : string) :
  (karaf_feature.check_client_bin_path (karaf_feature.p_client_bin p) s
     = (Ret (Some path), s) ->
   karaf_feature.client_command p s
     = (Ret (Some (path +:+ options_text (feature_options p))), s))
  /\ (karaf_repo.check_client_bin_path (karaf_repo.p_client_bin q) s
        = (Ret (Some path), s) ->
      karaf_repo.client_command q s
        = (Ret (Some (path +:+ options_text (repo_options q))), s)).
Proof.
  split; intros Hc.
  - unfold karaf_feature.client_command, Rt.bind. rewrite Hc.
    unfold feature_options.
    destruct p as [n v st cb [h|] [po|] [u|] [pw|] [d|] [r|]];
      options_cases; reflexivity.
  - unfold karaf_repo.client_command, Rt.bind. rewrite Hc.
    unfold repo_options.
    destruct q as [url st cb [h|] [po|] [u|] [pw|] [d|] [r|]];
      options_cases; reflexivity.
Qed.

(** X4: a client_bin that is neither a file nor a directory ends either
    module with the exception of the path check before any command is
    run. *)
Theorem unsupported_client_bin_stops (p : karaf_feature.params)
    (q : karaf_repo.params) (w : World) :
  (isfile (karaf_feature.p_client_bin p) = false ->
   isdir (karaf_feature.p_client_bin p) = false ->
   Rt.exec (karaf_feature.main p) w
     = (Raise ("client_bin parameter not supported: "
               +:+ karaf_feature.p_client_bin p), []))
  /\ (isfile (karaf_repo.p_client_bin q) = false ->
      isdir (karaf_repo.p_client_bin q) = false ->
      Rt.exec (karaf_repo.main q) w
        = (Raise ("client_bin parameter not supported: "
                  +:+ karaf_repo.p_client_bin q), [])).
Proof.
  split; intros Hf Hd.
  - unfold Rt.exec, karaf_feature.main, karaf_feature.client_command,
      karaf_feature.check_client_bin_path, Rt.bind.
    rewrite Hf, Hd. reflexivity.
  - unfold Rt.exec, karaf_repo.main, karaf_repo.client_command,
      karaf_repo.check_client_bin_path, Rt.bind.
    rewrite Hf, Hd. reflexivity.
Qed.

(** X5: when the path check hands back [None] (a directory without
    bin/client), either module ends with a TypeError before any command as
    soon as one connection option is given. *)
Theorem none_client_with_option_raises (p : karaf_feature.params)
    (q : karaf_repo.params) (w : World) :
  (karaf_feature.check_client_bin_path (karaf_feature.p_client_bin p)
     (Rt.St w []) = (Ret None, Rt.St w []) ->
   existsb is_given (feature_options p) = true ->
   Rt.exec (karaf_feature.main p) w = (Raise "TypeError", []))
  /\ (karaf_repo.check_client_bin_path (karaf_repo.p_client_bin q)
        (Rt.St w []) = (Ret None, Rt.St w []) ->
      existsb is_given (repo_options q) = true ->
      Rt.exec (karaf_repo.main q) w = (Raise "TypeError", [])).
Proof.
  split; intros Hc Hopt.
  - unfold Rt.exec, karaf_feature.main, karaf_feature.client_command, Rt.bind.
    rewrite Hc.
    destruct p as [n v st cb [h|] [po|] [u|] [pw|] [d|] [r|]];
      try discriminate Hopt; reflexivity.
  - unfold Rt.exec, karaf_repo.main, karaf_repo.client_command, Rt.bind.
    rewrite Hc.
    destruct q as [url st cb [h|] [po|] [u|] [pw|] [d|] [r|]];
      try discriminate Hopt; reflexivity.
Qed.

End Client.

(** ** Whole runs of the feature module *)

Section FeatureRuns.
Context `{Host}.

Lemma install_feature_result (cb : option string) (n : string)
    (v : option string) (s : Rt.st) (w1 w2 : World) (rc rc' : Z)
    (out err out' err' : string) :
  let cmd := karaf_feature.CLIENT_KARAF_COMMAND_WITH_ARGS cb "install"
               (karaf_feature.full_qualified_name n v) in
  let listing := karaf_feature.CLIENT_KARAF_COMMAND cb "list -i --no-format" in
  run_command cmd (Rt.world s) = ((rc, out, err), w1) ->
  run_command listing w1 = ((rc', out', err'), w2) ->
  karaf_feature.install_feature cb n v s =
    if negb (Z.eqb rc 0)
    then (FailJson (karaf_feature.parse_error out),
          Rt.St w1 (Rt.trace s ++ [Run cmd]))
    else if karaf_feature.installed_in out' n v
    then (Ret (true, cmd, out, err),
          Rt.St w2 (Rt.trace s ++ [Run cmd; Run listing]))
    else (FailJson "Feature fails to install",
          Rt.St w2 (Rt.trace s ++ [Run cmd; Run listing])).
Proof.
  intros cmd listing Hr Hr'.
  unfold karaf_feature.install_feature, Rt.bind.
  change (Py.getitem karaf_feature.PACKAGE_STATE_MAP "present") with "install".
  fold cmd. rewrite (run_result _ _ _ _ Hr).
  destruct (Z.eqb rc 0); cbn [negb]; [|reflexivity].
  unfold Rt.ret at 1.
  rewrite (is_feature_installed_result cb n v (Rt.St w1 _) _ _ _ _ Hr').
  fold listing. cbn [Rt.trace]. rewrite <- app_assoc. cbn [app].
  destruct (karaf_feature.installed_in out' n v); reflexivity.
Qed.

Lemma uninstall_feature_result (cb : option string) (n : string)
    (v : option string) (s : Rt.st) (w1 w2 : World) (rc rc' : Z)
    (out err out' err' : string) :
  let cmd := karaf_feature.CLIENT_KARAF_COMMAND_WITH_ARGS cb "uninstall"
               (karaf_feature.full_qualified_name n v) in
  let listing := karaf_feature.CLIENT_KARAF_COMMAND cb "list -i --no-format" in
  run_command cmd (Rt.world s) = ((rc, out, err), w1) ->
  run_command listing w1 = ((rc', out', err'), w2) ->
  karaf_feature.uninstall_feature cb n v s =
    if negb (Z.eqb rc 0)
    then (FailJson (karaf_feature.parse_error out),
          Rt.St w1 (Rt.trace s ++ [Run cmd]))
    else if karaf_feature.installed_in out' n v
    then (FailJson "Feature fails to uninstall",
          Rt.St w2 (Rt.trace s ++ [Run cmd; Run listing]))
    else (Ret (true, cmd, out, err),
          Rt.St w2 (Rt.trace s ++ [Run cmd; Run listing])).
Proof.
  intros cmd listing Hr Hr'.
  unfold karaf_feature.uninstall_feature, Rt.bind.
  change (Py.getitem karaf_feature.PACKAGE_STATE_MAP "absent")
    with "uninstall".
  fold cmd. rewrite (run_result _ _ _ _ Hr).
  destruct (Z.eqb rc 0); cbn [negb]; [|reflexivity].
  unfold Rt.ret at 1.
  rewrite (is_feature_installed_result cb n v (Rt.St w1 _) _ _ _ _ Hr').
  fold listing. cbn [Rt.trace]. rewrite <- app_assoc. cbn [app].
  destruct (karaf_feature.installed_in out' n v); reflexivity.
Qed.

(** X6: with the wanted state present and a first listing that does not
    show the feature, the module runs the install command; an exit code
    other than zero ends the run there with the extracted reason and no
    second listing; otherwise a second listing decides between a result
    with changed = true, the command and its output, and the failure
    Feature fails to install.  Neither the error markers in the output of
    the install command nor the exit code of the second listing are
    looked at. *)
Theorem feature_main_install (p : karaf_feature.params) (w w1 w2 w3 : World)
    (cb : option string) (rc1 rc2 rc3 : Z)
    (out1 err1 out2 err2 out3 err3 : string) :
  karaf_feature.p_state p = "present" ->
  fst (karaf_feature.client_command p (Rt.St w [])) = Ret cb ->
  let name := karaf_feature.p_name p in
  let version := karaf_feature.p_version p in
  let listing := karaf_feature.CLIENT_KARAF_COMMAND cb "list -i --no-format" in
  let install := karaf_feature.CLIENT_KARAF_COMMAND_WITH_ARGS cb "install"
                   (karaf_feature.full_qualified_name name version) in
  run_command listing w = ((rc1, out1, err1), w1) ->
  karaf_feature.installed_in out1 name version = false ->
  run_command install w1 = ((rc2, out2, err2), w2) ->
  run_command listing w2 = ((rc3, out3, err3), w3) ->
  Rt.exec (karaf_feature.main p) w =
    if negb (Z.eqb rc2 0)
    then (FailJson (karaf_feature.parse_error out2),
          [Run listing; Run install])
    else if karaf_feature.installed_in out3 name version
    then (ExitJson [("changed", Py.PBool true); ("cmd", Py.PStr install);
                    ("name", Py.PStr name); ("state", Py.PStr "present");
                    ("stdout", Py.PStr out2); ("stderr", Py.PStr err2)],
          [Run listing; Run install; Run listing])
    else (FailJson "Feature fails to install",
          [Run listing; Run install; Run listing]).
Proof.
  intros Hs Hcb name version listing install Hr1 Hno Hr2 Hr3.
  unfold Rt.exec, karaf_feature.main, Rt.bind.
  rewrite (silent_result _ _ _ (feature_client_command_silent p) Hcb).
  rewrite (is_feature_installed_result _ _ _ (Rt.St w []) _ _ _ _ Hr1).
  fold name version. rewrite Hs, Hno. cbn [String.eqb Ascii.eqb Bool.eqb andb negb].
  rewrite (install_feature_result cb name version (Rt.St w1 _)
             w2 w3 rc2 rc3 out2 err2 out3 err3 Hr2 Hr3).
  fold install listing.
  destruct (Z.eqb rc2 0); cbn [negb]; [|reflexivity].
  destruct (karaf_feature.installed_in out3 name version); reflexivity.
Qed.

(** X7: with the wanted state absent and a first listing that shows the
    feature, the module runs the uninstall command; an exit code other
    than zero ends the run there with the extracted reason; otherwise a
    second listing decides between the failure Feature fails to uninstall
    and a result with changed = true. *)
Theorem feature_main_uninstall (p : karaf_feature.params) (w w1 w2 w3 : World)
    (cb : option string) (rc1 rc2 rc3 : Z)
    (out1 err1 out2 err2 out3 err3 : string) :
  karaf_feature.p_state p = "absent" ->
  fst (karaf_feature.client_command p (Rt.St w [])) = Ret cb ->
  let name := karaf_feature.p_name p in
  let version := karaf_feature.p_version p in
  let listing := karaf_feature.CLIENT_KARAF_COMMAND cb "list -i --no-format" in
  let uninstall := karaf_feature.CLIENT_KARAF_COMMAND_WITH_ARGS cb "uninstall"
                     (karaf_feature.full_qualified_name name version) in
  run_command listing w = ((rc1, out1, err1), w1) ->
  karaf_feature.installed_in out1 name version = true ->
  run_command uninstall w1 = ((rc2, out2, err2), w2) ->
  run_command listing w2 = ((rc3, out3, err3), w3) ->
  Rt.exec (karaf_feature.main p) w =
    if negb (Z.eqb rc2 0)
    then (FailJson (karaf_feature.parse_error out2),
          [Run listing; Run uninstall])
    else if karaf_feature.installed_in out3 name version
    then (FailJson "Feature fails to uninstall",
          [Run listing; Run uninstall; Run listing])
    else (ExitJson [("changed", Py.PBool true); ("cmd", Py.PStr uninstall);
                    ("name", Py.PStr name); ("state", Py.PStr "absent");
                    ("stdout", Py.PStr out2); ("stderr", Py.PStr err2)],
          [Run listing; Run uninstall; Run listing]).
Proof.
  intros Hs Hcb name version listing uninstall Hr1 Hyes Hr2 Hr3.
  unfold Rt.exec, karaf_feature.main, Rt.bind.
  rewrite (silent_result _ _ _ (feature_client_command_silent p) Hcb).
  rewrite (is_feature_installed_result _ _ _ (Rt.St w []) _ _ _ _ Hr1).
  fold name version. rewrite Hs, Hyes. cbn [String.eqb Ascii.eqb Bool.eqb andb negb].
  rewrite (uninstall_feature_result cb name version (Rt.St w1 _)
             w2 w3 rc2 rc3 out2 err2 out3 err3 Hr2 Hr3).
  fold uninstall listing.
  destruct (Z.eqb rc2 0); cbn [negb]; [|reflexivity].
  destruct (karaf_feature.installed_in out3 name version); reflexivity.
Qed.

End FeatureRuns.

Section FeatureShape.
Context `{Host}.

(** X8: whatever the console answers, once the client is resolved the
    feature module runs the listing first, then at most one changing
    command, which is the install command when the wanted state is present
    and the uninstall command when it is absent, and after it at most one
    more listing; nothing else is run. *)
Theorem feature_main_commands (p : karaf_feature.params) (w : World)
    (cb : option string) :
  fst (karaf_feature.client_command p (Rt.St w [])) = Ret cb ->
  let state := karaf_feature.p_state p in
  let listing :=
    Run (karaf_feature.CLIENT_KARAF_COMMAND cb "list -i --no-format") in
  let change :=
    Run (karaf_feature.CLIENT_KARAF_COMMAND_WITH_ARGS cb
           (Py.getitem karaf_feature.PACKAGE_STATE_MAP state)
           (karaf_feature.full_qualified_name (karaf_feature.p_name p)
              (karaf_feature.p_version p))) in
  let t := snd (Rt.exec (karaf_feature.main p) w) in
  t = [listing]
  \/ ((state = "present" \/ state = "absent")
      /\ (t = [listing; change] \/ t = [listing; change; listing])).
Proof.
  intros Hcb state listing change t. subst t.
  destruct (run_command
              (karaf_feature.CLIENT_KARAF_COMMAND cb "list -i --no-format") w)
    as [[[rc1 out1] err1] w1] eqn:Hr1.
  unfold Rt.exec, karaf_feature.main, Rt.bind.
  rewrite (silent_result _ _ _ (feature_client_command_silent p) Hcb).
  rewrite (is_feature_installed_result _ _ _ (Rt.St w []) _ _ _ _ Hr1).
  fold state.
  destruct (karaf_feature.installed_in out1 (karaf_feature.p_name p)
              (karaf_feature.p_version p)) eqn:Hi; cbn [negb].
  - rewrite andb_false_r, andb_true_r.
    destruct (String.eqb_spec state "absent") as [Hs|Hs]; [|left; reflexivity].
    right. split; [right; exact Hs|].
    subst change. rewrite Hs.
    change (Py.getitem karaf_feature.PACKAGE_STATE_MAP "absent")
      with "uninstall".
    destruct (run_command
                (karaf_feature.CLIENT_KARAF_COMMAND_WITH_ARGS cb "uninstall"
                   (karaf_feature.full_qualified_name (karaf_feature.p_name p)
                      (karaf_feature.p_version p))) w1)
      as [[[rc2 out2] err2] w2] eqn:Hr2.
    destruct (run_command
                (karaf_feature.CLIENT_KARAF_COMMAND cb "list -i --no-format")
                w2) as [[[rc3 out3] err3] w3] eqn:Hr3.
    rewrite (uninstall_feature_result cb _ _ (Rt.St w1 _)
               w2 w3 rc2 rc3 out2 err2 out3 err3 Hr2 Hr3).
    destruct (Z.eqb rc2 0); cbn [negb]; [|left; reflexivity].
    destruct (karaf_feature.installed_in out3 _ _); right; reflexivity.
  - rewrite !andb_true_r.
    destruct (String.eqb_spec state "present") as [Hs|Hs].
    + right. split; [left; exact Hs|].
      subst change. rewrite Hs.
      change (Py.getitem karaf_feature.PACKAGE_STATE_MAP "present")
        with "install".
      destruct (run_command
                  (karaf_feature.CLIENT_KARAF_COMMAND_WITH_ARGS cb "install"
                     (karaf_feature.full_qualified_name
                        (karaf_feature.p_name p) (karaf_feature.p_version p)))
                  w1) as [[[rc2 out2] err2] w2] eqn:Hr2.
      destruct (run_command
                  (karaf_feature.CLIENT_KARAF_COMMAND cb "list -i --no-format")
                  w2) as [[[rc3 out3] err3] w3] eqn:Hr3.
      rewrite (install_feature_result cb _ _ (Rt.St w1 _)
                 w2 w3 rc2 rc3 out2 err2 out3 err3 Hr2 Hr3).
      destruct (Z.eqb rc2 0); cbn [negb]; [|left; reflexivity].
      destruct (karaf_feature.installed_in out3 _ _); right; reflexivity.
    + rewrite andb_false_r. left. reflexivity.
Qed.

(** X9: a run asked with the empty string as version is, command for
    command and result for result, the run asked with no version. *)
Theorem feature_main_empty_version (name state client_bin : string)
    (host port user password delay retry : option string) (w : World) :
  Rt.exec (karaf_feature.main
             (karaf_feature.Params name (Some "") state client_bin
                host port user password delay retry)) w
  = Rt.exec (karaf_feature.main
               (karaf_feature.Params name None state client_bin
                  host port user password delay retry)) w.
Proof. reflexivity. Qed.

End FeatureShape.

(** ** Order of the listing *)

Lemma existsb_records (f : string * string * string -> bool)
    (lines : list string) :
  existsb f (records_of_lines lines) =
    existsb (fun line => match karaf_feature.feature_data line with
                         | Some r => f r
                         | None => false
                         end) lines.
Proof.
  induction lines as [|line lines IH]; [reflexivity|].
  cbn [records_of_lines existsb].
  destruct (karaf_feature.feature_data line); cbn [existsb]; rewrite IH;
    reflexivity.
Qed.

Lemma existsb_Permutation {A} (f : A -> bool) (l1 l2 : list A) :
  Permutation l1 l2 -> existsb f l1 = existsb f l2.
Proof.
  induction 1 as [|x l1 l2 _ IH|x y l|l1 l2 l3 _ IH1 _ IH2]; cbn [existsb].
  - reflexivity.
  - rewrite IH. reflexivity.
  - destruct (f x), (f y); reflexivity.
  - congruence.
Qed.

(** X10: although the loop stops at the first line that answers, the
    installed-check does not depend on the order of the lines: two
    listings with the same lines in any order get the same answer. *)
Theorem installed_in_order_free (out1 out2 n : string) (v : option string) :
  Permutation (Py.split_on Py.newline out1) (Py.split_on Py.newline out2) ->
  karaf_feature.installed_in out1 n v = karaf_feature.installed_in out2 n v.
Proof.
  intros Hperm. unfold karaf_feature.installed_in. cbv zeta.
  rewrite !scan_lines_records, !existsb_records.
  apply existsb_Permutation, Hperm.
Qed.

Lemma installed_in_order_free_witness :
  karaf_feature.installed_in
    ("camel-jms 2.18.1 x Uninstalled" +:+ Script.nl
     +:+ "camel-jms 2.19.0 x Installed") "camel-jms" (Some "2.19.0")
  = karaf_feature.installed_in
      ("camel-jms 2.19.0 x Installed" +:+ Script.nl
       +:+ "camel-jms 2.18.1 x Uninstalled") "camel-jms" (Some "2.19.0").
Proof.
  apply installed_in_order_free. apply perm_swap.
Defined.

(** ** Separators in versions *)

Lemma occurs_replace_gone (a b : ascii) (s : string) :
  a <> b -> occurs a (Py.replace a b s) = false.
Proof.
  intros Hab. induction s as [|c s IH]; [reflexivity|].
  cbn [Py.replace occurs]. rewrite IH, orb_false_r.
  destruct (Ascii.eqb_spec c a) as [->|Hca]; apply Ascii.eqb_neq; congruence.
Qed.

Lemma occurs_replace_kept (c a b : ascii) (s : string) :
  c <> a -> occurs c s = true -> occurs c (Py.replace a b s) = true.
Proof.
  intros Hca. induction s as [|d s IH]; [discriminate|].
  cbn [Py.replace occurs]. intros Hocc.
  apply orb_true_iff in Hocc as [Hd|Hs].
  - apply Ascii.eqb_eq in Hd. subst d.
    destruct (Ascii.eqb_spec c a) as [->|_]; [congruence|].
    rewrite Ascii.eqb_refl. reflexivity.
  - rewrite (IH Hs). apply orb_true_r.
Qed.

Lemma existsb_none {A} (f : A -> bool) (l : list A) :
  (forall a, In a l -> f a = false) -> existsb f l = false.
Proof.
  intros Hf. induction l as [|a l IH]; [reflexivity|].
  cbn [existsb]. rewrite (Hf a) by (left; reflexivity).
  apply IH. intros b Hb. apply Hf. right. exact Hb.
Qed.

(** X11: the wanted version has only its [-] turned into [.] and the
    listed version only its [_]; so a wanted version that holds a [_] is
    never found installed, and a listing in which every record of the
    feature that is not uninstalled holds a [-] in its version answers no
    wanted version. *)
Theorem version_separators (out n v : string) :
  v <> "" ->
  (occurs "_" v = true -> karaf_feature.installed_in out n (Some v) = false)
  /\ ((forall r, In r (feature_records out) -> present_record n r = true ->
                 occurs "-" (record_version r) = true) ->
      karaf_feature.installed_in out n (Some v) = false).
Proof.
  intros Hv.
  assert (Hin : karaf_feature.installed_in out n (Some v) =
                existsb (fun r => present_record n r
                           && String.eqb
                                (Py.replace "_" "." (record_version r))
                                (Py.replace "-" "." v))
                        (feature_records out)).
  { unfold karaf_feature.installed_in.
    rewrite (truthy_true v Hv), scan_lines_records, truthy_replace,
      (truthy_true v Hv). reflexivity. }
  rewrite Hin. split.
  - intros Hocc. apply existsb_none. intros r _.
    destruct (String.eqb_spec (Py.replace "_" "." (record_version r))
                (Py.replace "-" "." v)) as [Heq|_]; [|apply andb_false_r].
    exfalso.
    assert (Hgone : occurs "_" (Py.replace "_" "." (record_version r)) = false)
      by (apply occurs_replace_gone; discriminate).
    assert (Hkept : occurs "_" (Py.replace "-" "." v) = true)
      by (apply occurs_replace_kept; [discriminate|exact Hocc]).
    congruence.
  - intros Hall. apply existsb_none. intros r Hr.
    destruct (present_record n r) eqn:Hp; [|reflexivity].
    destruct (String.eqb_spec (Py.replace "_" "." (record_version r))
                (Py.replace "-" "." v)) as [Heq|_]; [|reflexivity].
    exfalso.
    assert (Hgone : occurs "-" (Py.replace "-" "." v) = false)
      by (apply occurs_replace_gone; discriminate).
    assert (Hkept : occurs "-" (Py.replace "_" "." (record_version r)) = true)
      by (apply occurs_replace_kept; [discriminate|exact (Hall r Hr Hp)]).
    congruence.
Qed.

Lemma version_separators_witness :
  karaf_feature.installed_in "camel-jms 2.18.1_SNAPSHOT x Installed"
    "camel-jms" (Some "2.18.1_SNAPSHOT") = false
  /\ karaf_feature.installed_in "camel-jms 2.18.1-SNAPSHOT x Installed"
       "camel-jms" (Some "2.18.1-SNAPSHOT") = false.
Proof.
  split.
  - apply (proj1 (version_separators "camel-jms 2.18.1_SNAPSHOT x Installed"
                    "camel-jms" "2.18.1_SNAPSHOT" ltac:(discriminate))).
    reflexivity.
  - apply (proj2 (version_separators "camel-jms 2.18.1-SNAPSHOT x Installed"
                    "camel-jms" "2.18.1-SNAPSHOT" ltac:(discriminate))).
    intros r [<-|[]] _. reflexivity.
Defined.

(** ** Whole runs of the repository module *)

Section RepoRuns.
Context `{Host}.

(** If [run_with_check] returns, the command ended with exit code zero
    and what it returns is the output, free of both error markers. *)
Lemma run_with_check_returns (cmd : string) (s : Rt.st) (out : string) :
  fst (karaf_repo.run_with_check cmd s) = Ret out ->
  exists err w', run_command cmd (Rt.world s) = ((0%Z, out, err), w')
    /\ Py.contains "Error executing command" out = false
    /\ Py.contains "Command not found" out = false.
Proof.
  intros Hret.
  destruct (run_command cmd (Rt.world s)) as [[[rc o] err] w'] eqn:Hr.
  rewrite (run_with_check_result _ _ _ _ _ _ Hr) in Hret.
  unfold healthy in Hret.
  destruct (Z.eqb_spec rc 0) as [->|_]; [|discriminate].
  destruct (Py.contains "Error executing command" o) eqn:Hm1; [discriminate|].
  destruct (Py.contains "Command not found" o) eqn:Hm2; [discriminate|].
  cbn in Hret. injection Hret as <-.
  exists err, w'. auto.
Qed.

(** X12: the mapping that [get_existing_repos] returns is never built
    from the output of a failed command: when it returns, the listing
    command ended with exit code zero, its output holds neither error
    marker, and the mapping is the one of that output. *)
Theorem get_existing_repos_returns (cb : option string) (s : Rt.st)
    (repos : gmap string karaf_repo.repo) :
  fst (karaf_repo.get_existing_repos cb s) = Ret repos ->
  exists out err w',
    run_command (karaf_repo.repo_list_command cb) (Rt.world s)
      = ((0%Z, out, err), w')
    /\ Py.contains "Error executing command" out = false
    /\ Py.contains "Command not found" out = false
    /\ repos = karaf_repo.repos_in out.
Proof.
  unfold karaf_repo.get_existing_repos, Rt.bind.
  destruct (karaf_repo.run_with_check (karaf_repo.repo_list_command cb) s)
    as [[out|msg|r|e] s'] eqn:Hrun; try discriminate.
  cbn. intros [= <-].
  destruct (run_with_check_returns (karaf_repo.repo_list_command cb) s out)
    as (err & w' & Hr & Hm1 & Hm2); [rewrite Hrun; reflexivity|].
  exists out, err, w'. auto.
Qed.

(** The module after its first listing. *)
Lemma repo_main_after_listing (p : karaf_repo.params) (w w1 : World)
    (cb : option string) (rc : Z) (out err : string) :
  fst (karaf_repo.client_command p (Rt.St w [])) = Ret cb ->
  run_command (karaf_repo.repo_list_command cb) w = ((rc, out, err), w1) ->
  healthy (rc, out, err) = true ->
  let url := karaf_repo.p_url p in
  let state := karaf_repo.p_state p in
  let existing_repos := karaf_repo.repos_in out in
  karaf_repo.main p (Rt.St w []) =
    Rt.bind
      (if String.eqb state "present"
          && negb (karaf_repo.member url existing_repos)
       then karaf_repo.add_repo cb url
       else if String.eqb state "absent" && karaf_repo.member url existing_repos
       then karaf_repo.remove_repo cb url
       else if String.eqb state "refresh" then
         if negb (karaf_repo.member url existing_repos)
         then Rt.fail_json (karaf_repo.not_available url)
         else karaf_repo.refresh_repo cb url
       else Rt.ret [("changed", Py.PBool false);
                    ("original_message", Py.PStr "");
                    ("message", Py.PStr "")])
      Rt.exit_json
      (Rt.St w1 [Run (karaf_repo.repo_list_command cb)]).
Proof.
  intros Hcb Hr Hok url state existing_repos.
  unfold karaf_repo.main.
  unfold Rt.bind at 1.
  rewrite (silent_result _ _ _ (repo_client_command_silent p) Hcb).
  unfold Rt.bind at 1.
  rewrite (get_existing_repos_result _ (Rt.St w []) _ _ _ _ Hr), Hok.
  reflexivity.
Qed.

Lemma repo_main_listing_failure_trace (p : karaf_repo.params) (w w1 : World)
    (cb : option string) (rc : Z) (out err : string) :
  fst (karaf_repo.client_command p (Rt.St w [])) = Ret cb ->
  run_command (karaf_repo.repo_list_command cb) w = ((rc, out, err), w1) ->
  healthy (rc, out, err) = false ->
  Rt.exec (karaf_repo.main p) w
    = (FailJson out, [Run (karaf_repo.repo_list_command cb)]).
Proof.
  intros Hcb Hr Hbad. unfold Rt.exec, karaf_repo.main, Rt.bind.
  rewrite (silent_result _ _ _ (repo_client_command_silent p) Hcb).
  rewrite (get_existing_repos_result _ (Rt.St w []) _ _ _ _ Hr), Hbad.
  reflexivity.
Qed.

(** X13: when the first listing fails, by its exit code or by an error
    marker in its output, the repository module stops with that output as
    message whatever the wanted state, and the listing is the only
    command it ran. *)
Theorem repo_main_listing_failure (p : karaf_repo.params) (w w1 : World)
    (cb : option string) (rc : Z) (out err : string) :
  fst (karaf_repo.client_command p (Rt.St w [])) = Ret cb ->
  run_command (karaf_repo.repo_list_command cb) w = ((rc, out, err), w1) ->
  healthy (rc, out, err) = false ->
  Rt.exec (karaf_repo.main p) w
    = (FailJson out, [Run (karaf_repo.repo_list_command cb)]).
Proof.
  intros Hcb Hr Hbad.
  exact (repo_main_listing_failure_trace p w w1 cb rc out err Hcb Hr Hbad).
Qed.

Lemma add_repo_result (cb : option string) (url : string) (s : Rt.st)
    (w1 w2 : World) (rc rc' : Z) (out err out' err' : string) :
  let cmd := karaf_repo.CLIENT_KARAF_COMMAND_WITH_ARGS cb "repo-add" url in
  let listing := karaf_repo.repo_list_command cb in
  run_command cmd (Rt.world s) = ((rc, out, err), w1) ->
  run_command listing w1 = ((rc', out', err'), w2) ->
  karaf_repo.add_repo cb url s =
    if healthy (rc, out, err) then
      (if healthy (rc', out', err') then
         if karaf_repo.member url (karaf_repo.repos_in out')
         then Ret (karaf_repo.changed_result out cmd)
         else FailJson ("Repo (" +:+ Py.dquote +:+ url +:+ Py.dquote
                         +:+ ") did not install")
       else FailJson out',
       Rt.St w2 (Rt.trace s ++ [Run cmd; Run listing]))
    else (FailJson out, Rt.St w1 (Rt.trace s ++ [Run cmd])).
Proof.
  intros cmd listing Hr Hr'. unfold karaf_repo.add_repo, Rt.bind.
  change (Py.getitem karaf_repo.PACKAGE_STATE_MAP karaf_repo.STATE_PRESENT)
    with "repo-add".
  fold cmd. rewrite (run_with_check_result _ _ _ _ _ _ Hr).
  destruct (healthy (rc, out, err)); [|reflexivity].
  rewrite (get_existing_repos_result cb (Rt.St w1 _) _ _ _ _ Hr').
  fold listing. cbn [Rt.trace]. rewrite <- app_assoc. cbn [app].
  destruct (healthy (rc', out', err')); [|reflexivity].
  destruct (karaf_repo.member url (karaf_repo.repos_in out')); reflexivity.
Qed.

Lemma remove_repo_result (cb : option string) (url : string) (s : Rt.st)
    (w1 w2 : World) (rc rc' : Z) (out err out' err' : string) :
  let cmd := karaf_repo.CLIENT_KARAF_COMMAND_WITH_ARGS cb "repo-remove" url in
  let listing := karaf_repo.repo_list_command cb in
  run_command cmd (Rt.world s) = ((rc, out, err), w1) ->
  run_command listing w1 = ((rc', out', err'), w2) ->
  karaf_repo.remove_repo cb url s =
    if healthy (rc, out, err) then
      (if healthy (rc', out', err') then
         if karaf_repo.member url (karaf_repo.repos_in out')
         then FailJson ("Repo (" +:+ Py.dquote +:+ url +:+ Py.dquote
                         +:+ ") is still installed")
         else Ret (karaf_repo.changed_result out cmd)
       else FailJson out',
       Rt.St w2 (Rt.trace s ++ [Run cmd; Sleep 20; Run listing]))
    else (FailJson out, Rt.St w1 (Rt.trace s ++ [Run cmd])).
Proof.
  intros cmd listing Hr Hr'. unfold karaf_repo.remove_repo, Rt.bind.
  change (Py.getitem karaf_repo.PACKAGE_STATE_MAP karaf_repo.STATE_ABSENT)
    with "repo-remove".
  fold cmd. rewrite (run_with_check_result _ _ _ _ _ _ Hr).
  destruct (healthy (rc, out, err)); [|reflexivity].
  unfold Rt.sleep. cbn [Rt.world Rt.trace].
  rewrite (get_existing_repos_result cb (Rt.St w1 _) _ _ _ _ Hr').
  fold listing. cbn [Rt.trace]. rewrite <- !app_assoc. cbn [app].
  destruct (healthy (rc', out', err')); [|reflexivity].
  destruct (karaf_repo.member url (karaf_repo.repos_in out')); reflexivity.
Qed.

Lemma refresh_repo_result (cb : option string) (url : string) (s : Rt.st)
    (w1 : World) (rc : Z) (out err : string) :
  let cmd := karaf_repo.CLIENT_KARAF_COMMAND_WITH_ARGS cb "repo-refresh" url in
  run_command cmd (Rt.world s) = ((rc, out, err), w1) ->
  karaf_repo.refresh_repo cb url s =
    (if healthy (rc, out, err)
     then Ret (karaf_repo.changed_result out cmd)
     else FailJson out,
     Rt.St w1 (Rt.trace s ++ [Run cmd])).
Proof.
  intros cmd Hr. unfold karaf_repo.refresh_repo, Rt.bind.
  change (Py.getitem karaf_repo.PACKAGE_STATE_MAP karaf_repo.STATE_REFRESH)
    with "repo-refresh".
  fold cmd. rewrite (run_with_check_result _ _ _ _ _ _ Hr).
  destruct (healthy (rc, out, err)); reflexivity.
Qed.

End RepoRuns.

Section RepoShape.
Context `{Host}.

(** X14: with the wanted state present and a successful first listing
    without the url, the module runs repo-add; when that command fails the
    run stops with its output and no second listing; otherwise the
    repositories are listed once more, at once, and the run ends with
    changed = true, the command and its output when the url is listed, with
    the message Repo ("<url>") did not install when it is not, and with the
    output of the listing when the listing itself fails. *)
Theorem repo_main_add (p : karaf_repo.params) (w w1 w2 w3 : World)
    (cb : option string) (rc1 rc2 rc3 : Z)
    (out1 err1 out2 err2 out3 err3 : string) :
  karaf_repo.p_state p = "present" ->
  fst (karaf_repo.client_command p (Rt.St w [])) = Ret cb ->
  let url := karaf_repo.p_url p in
  let listing := karaf_repo.repo_list_command cb in
  let add := karaf_repo.CLIENT_KARAF_COMMAND_WITH_ARGS cb "repo-add" url in
  run_command listing w = ((rc1, out1, err1), w1) ->
  healthy (rc1, out1, err1) = true ->
  karaf_repo.member url (karaf_repo.repos_in out1) = false ->
  run_command add w1 = ((rc2, out2, err2), w2) ->
  run_command listing w2 = ((rc3, out3, err3), w3) ->
  Rt.exec (karaf_repo.main p) w =
    if healthy (rc2, out2, err2) then
      (if healthy (rc3, out3, err3) then
         if karaf_repo.member url (karaf_repo.repos_in out3)
         then ExitJson (karaf_repo.changed_result out2 add)
         else FailJson ("Repo (" +:+ Py.dquote +:+ url +:+ Py.dquote
                         +:+ ") did not install")
       else FailJson out3,
       [Run listing; Run add; Run listing])
    else (FailJson out2, [Run listing; Run add]).
Proof.
  intros Hs Hcb url listing add Hr1 Hok1 Hno Hr2 Hr3.
  unfold Rt.exec.
  rewrite (repo_main_after_listing p w w1 cb rc1 out1 err1 Hcb Hr1 Hok1).
  fold url. rewrite Hs, Hno. cbn [String.eqb Ascii.eqb Bool.eqb andb negb].
  unfold Rt.bind.
  rewrite (add_repo_result cb url (Rt.St w1 _) w2 w3 rc2 rc3
             out2 err2 out3 err3 Hr2 Hr3).
  fold add listing.
  destruct (healthy (rc2, out2, err2)); [|reflexivity].
  destruct (healthy (rc3, out3, err3)); [|reflexivity].
  destruct (karaf_repo.member url (karaf_repo.repos_in out3)); reflexivity.
Qed.

(** X15: a repo-remove command that fails, by its exit code or by an
    error marker, stops the run with its whole output as message: the
    module neither waits nor lists the repositories again. *)
Theorem repo_main_remove_failure (p : karaf_repo.params) (w w1 w2 : World)
    (cb : option string) (rc1 rc2 : Z) (out1 err1 out2 err2 : string) :
  karaf_repo.p_state p = "absent" ->
  fst (karaf_repo.client_command p (Rt.St w [])) = Ret cb ->
  let url := karaf_repo.p_url p in
  let listing := karaf_repo.repo_list_command cb in
  let remove := karaf_repo.CLIENT_KARAF_COMMAND_WITH_ARGS cb "repo-remove" url in
  run_command listing w = ((rc1, out1, err1), w1) ->
  healthy (rc1, out1, err1) = true ->
  karaf_repo.member url (karaf_repo.repos_in out1) = true ->
  run_command remove w1 = ((rc2, out2, err2), w2) ->
  healthy (rc2, out2, err2) = false ->
  Rt.exec (karaf_repo.main p) w = (FailJson out2, [Run listing; Run remove]).
Proof.
  intros Hs Hcb url listing remove Hr1 Hok1 Hyes Hr2 Hbad.
  unfold Rt.exec.
  rewrite (repo_main_after_listing p w w1 cb rc1 out1 err1 Hcb Hr1 Hok1).
  fold url. rewrite Hs, Hyes. cbn [String.eqb Ascii.eqb Bool.eqb andb negb].
  unfold Rt.bind, karaf_repo.remove_repo, Rt.bind.
  change (Py.getitem karaf_repo.PACKAGE_STATE_MAP karaf_repo.STATE_ABSENT)
    with "repo-remove".
  fold remove.
  rewrite (run_with_check_result _ (Rt.St w1 _) _ _ _ _ Hr2), Hbad.
  reflexivity.
Qed.

(** X16: whatever the console answers, once the client is resolved the
    repository module runs the listing first and then at most one changing
    command, the one of the wanted state; only repo-add and repo-remove are
    followed by a second listing, only repo-remove by a wait, of 20
    seconds and before that listing; nothing else is run. *)
Theorem repo_main_commands (p : karaf_repo.params) (w : World)
    (cb : option string) :
  fst (karaf_repo.client_command p (Rt.St w [])) = Ret cb ->
  let state := karaf_repo.p_state p in
  let url := karaf_repo.p_url p in
  let listing := Run (karaf_repo.repo_list_command cb) in
  let change sub :=
    Run (karaf_repo.CLIENT_KARAF_COMMAND_WITH_ARGS cb sub url) in
  let t := snd (Rt.exec (karaf_repo.main p) w) in
  t = [listing]
  \/ (state = "present"
      /\ (t = [listing; change "repo-add"]
          \/ t = [listing; change "repo-add"; listing]))
  \/ (state = "absent"
      /\ (t = [listing; change "repo-remove"]
          \/ t = [listing; change "repo-remove"; Sleep 20; listing]))
  \/ (state = "refresh" /\ t = [listing; change "repo-refresh"]).
Proof.
  intros Hcb state url listing change t. subst t.
  destruct (run_command (karaf_repo.repo_list_command cb) w)
    as [[[rc1 out1] err1] w1] eqn:Hr1.
  destruct (healthy (rc1, out1, err1)) eqn:Hok1.
  2:{ left.
      rewrite (repo_main_listing_failure_trace p w w1 cb rc1 out1 err1
                 Hcb Hr1 Hok1).
      reflexivity. }
  unfold Rt.exec.
  rewrite (repo_main_after_listing p w w1 cb rc1 out1 err1 Hcb Hr1 Hok1).
  fold url state. unfold Rt.bind.
  destruct (String.eqb_spec state "present") as [Hs|Hs1]; cbn [andb].
  - destruct (karaf_repo.member url (karaf_repo.repos_in out1)) eqn:Hm;
      cbn [negb].
    + rewrite Hs. left. reflexivity.
    + right. left. split; [exact Hs|].
      destruct (run_command
                  (karaf_repo.CLIENT_KARAF_COMMAND_WITH_ARGS cb "repo-add" url)
                  w1) as [[[rc2 out2] err2] w2] eqn:Hr2.
      destruct (run_command (karaf_repo.repo_list_command cb) w2)
        as [[[rc3 out3] err3] w3] eqn:Hr3.
      rewrite (add_repo_result cb url (Rt.St w1 _) w2 w3 rc2 rc3
                 out2 err2 out3 err3 Hr2 Hr3).
      destruct (healthy (rc2, out2, err2)); [|left; reflexivity].
      destruct (healthy (rc3, out3, err3)); [|right; reflexivity].
      destruct (karaf_repo.member url (karaf_repo.repos_in out3));
        right; reflexivity.
  - destruct (String.eqb_spec state "absent") as [Hs|Hs2]; cbn [andb].
    + destruct (karaf_repo.member url (karaf_repo.repos_in out1)) eqn:Hm.
      * right. right. left. split; [exact Hs|].
        destruct (run_command
                    (karaf_repo.CLIENT_KARAF_COMMAND_WITH_ARGS cb
                       "repo-remove" url) w1)
          as [[[rc2 out2] err2] w2] eqn:Hr2.
        destruct (run_command (karaf_repo.repo_list_command cb) w2)
          as [[[rc3 out3] err3] w3] eqn:Hr3.
        rewrite (remove_repo_result cb url (Rt.St w1 _) w2 w3 rc2 rc3
                   out2 err2 out3 err3 Hr2 Hr3).
        destruct (healthy (rc2, out2, err2)); [|left; reflexivity].
        destruct (healthy (rc3, out3, err3)); [|right; reflexivity].
        destruct (karaf_repo.member url (karaf_repo.repos_in out3));
          right; reflexivity.
      * rewrite Hs. left. reflexivity.
    + destruct (String.eqb_spec state "refresh") as [Hs|Hs3];
        [|left; reflexivity].
      destruct (karaf_repo.member url (karaf_repo.repos_in out1)) eqn:Hm;
        cbn [negb]; [|left; reflexivity].
      right. right. right. split; [exact Hs|].
      destruct (run_command
                  (karaf_repo.CLIENT_KARAF_COMMAND_WITH_ARGS cb
                     "repo-refresh" url) w1)
        as [[[rc2 out2] err2] w2] eqn:Hr2.
      rewrite (refresh_repo_result cb url (Rt.St w1 _) w2 rc2 out2 err2 Hr2).
      destruct (healthy (rc2, out2, err2)); reflexivity.
Qed.

End RepoShape.

(** ** Membership in the repository mapping *)

Lemma member_is_Some (u : string) (m : gmap string karaf_repo.repo) :
  karaf_repo.member u m = true <-> is_Some (m !! u).
Proof.
  unfold karaf_repo.member. destruct (m !! u) as [r|].
  - split; [eauto|reflexivity].
  - split; [discriminate|]. intros [r Hr]. discriminate Hr.
Qed.

Lemma add_line_member (m : gmap string karaf_repo.repo) (line u : string) :
  is_Some (karaf_repo.add_line m line !! u) <->
  is_Some (m !! u) \/ exists n, Py.split line = [n; u].
Proof.
  destruct (Py.split line) as [|a [|b [|c t]]] eqn:Hs.
  1,2,4: rewrite add_line_other by (intros n; rewrite Hs; discriminate);
    split; [auto|]; intros [Hm|[n Hn]]; [exact Hm|discriminate Hn].
  rewrite (add_line_pair m line a b Hs).
  destruct (decide (b = u)) as [->|Hne].
  - rewrite lookup_insert_eq. split; [eauto|eauto].
  - rewrite lookup_insert_ne by exact Hne.
    split; [auto|]. intros [Hm|[n Hn]]; [exact Hm|congruence].
Qed.

Lemma fold_add_line_member (lines : list string) (u : string) :
  forall m : gmap string karaf_repo.repo,
    is_Some (fold_left karaf_repo.add_line lines m !! u) <->
    is_Some (m !! u)
    \/ exists line n, In line lines /\ Py.split line = [n; u].
Proof.
  induction lines as [|line lines IH]; intros m; cbn [fold_left].
  - split; [auto|]. intros [Hm|(l & n & [] & _)]. exact Hm.
  - rewrite IH, add_line_member. split.
    + intros [[Hm|[n Hn]]|(l & n & Hl & Hn)].
      * left. exact Hm.
      * right. exists line, n. split; [left; reflexivity|exact Hn].
      * right. exists l, n. split; [right; exact Hl|exact Hn].
    + intros [Hm|(l & n & [<-|Hl] & Hn)].
      * left. left. exact Hm.
      * left. right. exists n. exact Hn.
      * right. exists l, n. split; [exact Hl|exact Hn].
Qed.

(** X17: a url is in the mapping of a repository listing exactly when
    some line of the listing splits into two tokens of which the url is
    the second; lines with one token or with three and more never add a
    url. *)
Theorem repos_in_member (out u : string) :
  karaf_repo.member u (karaf_repo.repos_in out) = true <->
  exists line n, In line (Py.split_on Py.newline out)
                 /\ Py.split line = [n; u].
Proof.
  rewrite member_is_Some. unfold karaf_repo.repos_in.
  rewrite fold_add_line_member, lookup_empty. split.
  - intros [[r Hr]|Hex]; [discriminate Hr|exact Hex].
  - intros Hex. right. exact Hex.
Qed.

Lemma repos_in_member_witness :
  karaf_repo.member "mvn:x/1.0/xml/features"
    (karaf_repo.repos_in
       ("Repository URL" +:+ Script.nl +:+ "x-1.0  mvn:x/1.0/xml/features"))
    = true.
Proof.
  apply (proj2 (repos_in_member
                  ("Repository URL" +:+ Script.nl
                   +:+ "x-1.0  mvn:x/1.0/xml/features")
                  "mvn:x/1.0/xml/features")).
  exists "x-1.0  mvn:x/1.0/xml/features", "x-1.0".
  split; [right; left; reflexivity|reflexivity].
Defined.

(** ** Whitespace around a line *)

Lemma split_go_trailing (s : string) (c : ascii) :
  Py.is_space c = true ->
  forall cur, Py.split_go cur (s +:+ String c "") = Py.split_go cur s.
Proof.
  intros Hc. induction s as [|d s IH]; intros cur.
  - rewrite append_nil. cbn [Py.split_go]. rewrite Hc.
    destruct (Py.truthy cur); reflexivity.
  - rewrite append_cons. cbn [Py.split_go].
    destruct (Py.is_space d); [destruct (Py.truthy cur)|]; rewrite ?IH;
      reflexivity.
Qed.

(** X18: a whitespace character before or after a line of a listing,
    such as the carriage return of a line that ends in CR LF, changes
    nothing for either parser. *)
Theorem line_edges_ignored (line : string) (c : ascii)
    (m : gmap string karaf_repo.repo) :
  Py.is_space c = true ->
  karaf_feature.feature_data (line +:+ String c "")
    = karaf_feature.feature_data line
  /\ karaf_feature.feature_data (String c line)
    = karaf_feature.feature_data line
  /\ karaf_repo.add_line m (line +:+ String c "") = karaf_repo.add_line m line
  /\ karaf_repo.add_line m (String c line) = karaf_repo.add_line m line.
Proof.
  intros Hc.
  assert (Ht : Py.split (line +:+ String c "") = Py.split line)
    by (apply split_go_trailing, Hc).
  assert (Hl : Py.split (String c line) = Py.split line)
    by (unfold Py.split; cbn [Py.split_go Py.truthy]; rewrite Hc; reflexivity).
  unfold karaf_feature.feature_data, karaf_repo.add_line.
  rewrite Ht, Hl. repeat split; reflexivity.
Qed.

Lemma line_edges_ignored_witness :
  karaf_feature.feature_data
    ("camel-jms 2.18.1 x Installed" +:+ String (ascii_of_nat 13) "")
    = karaf_feature.feature_data "camel-jms 2.18.1 x Installed"
  /\ karaf_feature.feature_data
       (String (ascii_of_nat 9) "camel-jms 2.18.1 x Installed")
    = karaf_feature.feature_data "camel-jms 2.18.1 x Installed"
  /\ karaf_repo.add_line ∅ ("x url" +:+ String (ascii_of_nat 13) "")
    = karaf_repo.add_line ∅ "x url"
  /\ karaf_repo.add_line ∅ (String (ascii_of_nat 13) "x url")
    = karaf_repo.add_line ∅ "x url".
Proof.
  split; [|split; [|split]].
  - apply (line_edges_ignored "camel-jms 2.18.1 x Installed"
             (ascii_of_nat 13) ∅ eq_refl).
  - apply (line_edges_ignored "camel-jms 2.18.1 x Installed"
             (ascii_of_nat 9) ∅ eq_refl).
  - apply (line_edges_ignored "x url" (ascii_of_nat 13) ∅ eq_refl).
  - apply (line_edges_ignored "x url" (ascii_of_nat 13) ∅ eq_refl).
Defined.

(** ** The further properties on the scripted host *)

Lemma client_command_options_witness :
  @karaf_feature.client_command Demo.installed
     (karaf_feature.Params "camel-jms" None "present" "/opt/karaf"
        (Some "karaf1") None (Some "admin") None None (Some "3"))
     (@Rt.St Demo.installed [] [])
    = (Ret (Some "/opt/karaf/bin/client -h karaf1 -u admin -r 3"), @Rt.St Demo.installed [] [])
  /\ @karaf_repo.client_command Demo.installed
       (karaf_repo.Params "mvn:x" "present" "/opt/karaf"
          None (Some "8101") None (Some "secret") (Some "2") None)
       (@Rt.St Demo.installed [] [])
    = (Ret (Some "/opt/karaf/bin/client -a 8101 -p secret -d 2"), @Rt.St Demo.installed [] []).
Proof.
  split.
  - apply (proj1 (@client_command_options Demo.installed
                    (karaf_feature.Params "camel-jms" None "present"
                       "/opt/karaf" (Some "karaf1") None (Some "admin") None
                       None (Some "3"))
                    (Demo.repository "present") (@Rt.St Demo.installed [] [])
                    "/opt/karaf/bin/client")).
    reflexivity.
  - apply (proj2 (@client_command_options Demo.installed
                    (Demo.feature None "present")
                    (karaf_repo.Params "mvn:x" "present" "/opt/karaf"
                       None (Some "8101") None (Some "secret") (Some "2") None)
                    (@Rt.St Demo.installed [] []) "/opt/karaf/bin/client")).
    reflexivity.
Defined.

Lemma unsupported_client_bin_stops_witness :
  @Rt.exec Demo.installed _
     (karaf_feature.main
        (karaf_feature.Params "camel-jms" None "present" "/opt/missing"
           None None None None None None))
     [Demo.ok "camel-jms 2.18.1 x Installed"]
    = (Raise "client_bin parameter not supported: /opt/missing", [])
  /\ @Rt.exec Demo.installed _
       (karaf_repo.main
          (karaf_repo.Params "mvn:x" "present" "/opt/missing"
             None None None None None None))
       [Demo.ok "x mvn:x"]
    = (Raise "client_bin parameter not supported: /opt/missing", []).
Proof.
  split.
  - apply (proj1 (@unsupported_client_bin_stops Demo.installed
                    (karaf_feature.Params "camel-jms" None "present"
                       "/opt/missing" None None None None None None)
                    (Demo.repository "present")
                    [Demo.ok "camel-jms 2.18.1 x Installed"]));
      reflexivity.
  - apply (proj2 (@unsupported_client_bin_stops Demo.installed
                    (Demo.feature None "present")
                    (karaf_repo.Params "mvn:x" "present" "/opt/missing"
                       None None None None None None)
                    [Demo.ok "x mvn:x"]));
      reflexivity.
Defined.

Lemma none_client_with_option_raises_witness :
  @Rt.exec Demo.no_client _
     (karaf_feature.main
        (karaf_feature.Params "camel-jms" None "present" "/opt/karaf"
           None (Some "8101") None None None None)) []
    = (Raise "TypeError", [])
  /\ @Rt.exec Demo.no_client _
       (karaf_repo.main
          (karaf_repo.Params "mvn:x" "present" "/opt/karaf"
             (Some "karaf1") None None None None None)) []
    = (Raise "TypeError", []).
Proof.
  split.
  - apply (proj1 (@none_client_with_option_raises Demo.no_client
                    (karaf_feature.Params "camel-jms" None "present"
                       "/opt/karaf" None (Some "8101") None None None None)
                    (Demo.repository "present") []));
      reflexivity.
  - apply (proj2 (@none_client_with_option_raises Demo.no_client
                    (Demo.feature None "present")
                    (karaf_repo.Params "mvn:x" "present" "/opt/karaf"
                       (Some "karaf1") None None None None None) []));
      reflexivity.
Defined.

Lemma feature_main_install_witness :
  @Rt.exec Demo.installed _
     (karaf_feature.main (Demo.feature (Some "2.18.1") "present"))
     [Demo.ok "camel-jms 2.18.1.SNAPSHOT x Installed";
      Demo.ok "Error executing command: ignored";
      (1%Z, "camel-jms 2.18.1 x Installed", "")]
    = (ExitJson
         [("changed", Py.PBool true);
          ("cmd", Py.PStr "/opt/karaf/bin/client 'feature:install camel-jms/2.18.1'");
          ("name", Py.PStr "camel-jms"); ("state", Py.PStr "present");
          ("stdout", Py.PStr "Error executing command: ignored");
          ("stderr", Py.PStr "")],
       [Run Demo.feature_list;
        Run "/opt/karaf/bin/client 'feature:install camel-jms/2.18.1'";
        Run Demo.feature_list]).
Proof.
  apply (@feature_main_install Demo.installed
           (Demo.feature (Some "2.18.1") "present")
           [Demo.ok "camel-jms 2.18.1.SNAPSHOT x Installed";
            Demo.ok "Error executing command: ignored";
            (1%Z, "camel-jms 2.18.1 x Installed", "")]
           [Demo.ok "Error executing command: ignored";
            (1%Z, "camel-jms 2.18.1 x Installed", "")]
           [(1%Z, "camel-jms 2.18.1 x Installed", "")] []
           Demo.client 0%Z 0%Z 1%Z
           "camel-jms 2.18.1.SNAPSHOT x Installed" ""
           "Error executing command: ignored" ""
           "camel-jms 2.18.1 x Installed" "");
    reflexivity.
Defined.

Lemma feature_main_uninstall_witness :
  @Rt.exec Demo.installed _
     (karaf_feature.main (Demo.feature None "absent"))
     [Demo.ok "camel-jms 2.18.1 x Installed";
      (1%Z, "Error: reason: in use", "")]
    = (FailJson "in use",
       [Run Demo.feature_list;
        Run "/opt/karaf/bin/client 'feature:uninstall camel-jms'"]).
Proof.
  apply (@feature_main_uninstall Demo.installed
           (Demo.feature None "absent")
           [Demo.ok "camel-jms 2.18.1 x Installed";
            (1%Z, "Error: reason: in use", "")]
           [(1%Z, "Error: reason: in use", "")] [] []
           Demo.client 0%Z 1%Z 1%Z
           "camel-jms 2.18.1 x Installed" ""
           "Error: reason: in use" "" "" "");
    reflexivity.
Defined.

Lemma feature_main_commands_witness :
  let t := snd (@Rt.exec Demo.installed _
                  (karaf_feature.main (Demo.feature None "present"))
                  [Demo.ok ""; Demo.ok "done"; Demo.ok ""]) in
  let change := Run "/opt/karaf/bin/client 'feature:install camel-jms'" in
  t = [Run Demo.feature_list]
  \/ (("present" = "present" \/ "present" = "absent")
      /\ (t = [Run Demo.feature_list; change]
          \/ t = [Run Demo.feature_list; change; Run Demo.feature_list])).
Proof.
  apply (@feature_main_commands Demo.installed
           (Demo.feature None "present")
           [Demo.ok ""; Demo.ok "done"; Demo.ok ""] Demo.client).
  reflexivity.
Defined.

Lemma get_existing_repos_returns_witness :
  exists out err w',
    @run_command Demo.installed (karaf_repo.repo_list_command Demo.client)
      [Demo.ok "x mvn:x"] = ((0%Z, out, err), w')
    /\ Py.contains "Error executing command" out = false
    /\ Py.contains "Command not found" out = false
    /\ karaf_repo.repos_in "x mvn:x" = karaf_repo.repos_in out.
Proof.
  apply (@get_existing_repos_returns Demo.installed Demo.client
           (@Rt.St Demo.installed [Demo.ok "x mvn:x"] []) (karaf_repo.repos_in "x mvn:x")).
  reflexivity.
Defined.

Lemma repo_main_listing_failure_witness :
  @Rt.exec Demo.installed _ (karaf_repo.main (Demo.repository "present"))
     [Demo.ok "Command not found: feature:repo-list"; Demo.ok "added"]
    = (FailJson "Command not found: feature:repo-list", [Run Demo.repo_list]).
Proof.
  apply (@repo_main_listing_failure Demo.installed (Demo.repository "present")
           [Demo.ok "Command not found: feature:repo-list"; Demo.ok "added"]
           [Demo.ok "added"] Demo.client 0%Z
           "Command not found: feature:repo-list" "");
    reflexivity.
Defined.

Lemma repo_main_add_witness :
  @Rt.exec Demo.installed _ (karaf_repo.main (Demo.repository "present"))
     [Demo.ok "camel mvn:y/2.0/xml/features"; Demo.ok "added";
      Demo.ok "camel mvn:y/2.0/xml/features"]
    = (FailJson ("Repo (" +:+ Py.dquote +:+ "mvn:x/1.0/xml/features"
                  +:+ Py.dquote +:+ ") did not install"),
       [Run Demo.repo_list;
        Run "/opt/karaf/bin/client 'feature:repo-add mvn:x/1.0/xml/features'";
        Run Demo.repo_list]).
Proof.
  apply (@repo_main_add Demo.installed (Demo.repository "present")
           [Demo.ok "camel mvn:y/2.0/xml/features"; Demo.ok "added";
            Demo.ok "camel mvn:y/2.0/xml/features"]
           [Demo.ok "added"; Demo.ok "camel mvn:y/2.0/xml/features"]
           [Demo.ok "camel mvn:y/2.0/xml/features"] []
           Demo.client 0%Z 0%Z 0%Z
           "camel mvn:y/2.0/xml/features" "" "added" ""
           "camel mvn:y/2.0/xml/features" "");
    reflexivity.
Defined.

Lemma repo_main_remove_failure_witness :
  @Rt.exec Demo.installed _ (karaf_repo.main (Demo.repository "absent"))
     [Demo.ok "x mvn:x/1.0/xml/features";
      Demo.ok "Error executing command: reason: locked"]
    = (FailJson "Error executing command: reason: locked",
       [Run Demo.repo_list;
        Run "/opt/karaf/bin/client 'feature:repo-remove mvn:x/1.0/xml/features'"]).
Proof.
  apply (@repo_main_remove_failure Demo.installed (Demo.repository "absent")
           [Demo.ok "x mvn:x/1.0/xml/features";
            Demo.ok "Error executing command: reason: locked"]
           [Demo.ok "Error executing command: reason: locked"] []
           Demo.client 0%Z 0%Z
           "x mvn:x/1.0/xml/features" ""
           "Error executing command: reason: locked" "");
    reflexivity.
Defined.

Lemma repo_main_commands_witness :
  let t := snd (@Rt.exec Demo.installed _
                  (karaf_repo.main (Demo.repository "absent"))
                  [Demo.ok "x mvn:x/1.0/xml/features"; Demo.ok "removed";
                   Demo.ok ""]) in
  let change sub :=
    Run (karaf_repo.CLIENT_KARAF_COMMAND_WITH_ARGS Demo.client sub
           "mvn:x/1.0/xml/features") in
  t = [Run Demo.repo_list]
  \/ ("absent" = "present"
      /\ (t = [Run Demo.repo_list; change "repo-add"]
          \/ t = [Run Demo.repo_list; change "repo-add"; Run Demo.repo_list]))
  \/ ("absent" = "absent"
      /\ (t = [Run Demo.repo_list; change "repo-remove"]
          \/ t = [Run Demo.repo_list; change "repo-remove"; Sleep 20;
                  Run Demo.repo_list]))
  \/ ("absent" = "refresh" /\ t = [Run Demo.repo_list; change "repo-refresh"]).
Proof.
  apply (@repo_main_commands Demo.installed (Demo.repository "absent")
           [Demo.ok "x mvn:x/1.0/xml/features"; Demo.ok "removed"; Demo.ok ""]
           Demo.client).
  reflexivity.
Defined.
